(** * versuchung: the experiment lifecycle and identity engine

    A shallow embedding of [versuchung/experiment.py] (class [Experiment])
    and of the leaf parameter types of [versuchung/types.py] ([String],
    [FilesystemObject], [File], [Directory]).

    Python text is modelled as [string] (a sequence of bytes: the UTF-8
    encoding of the text, so that [.encode()] is the identity and the
    byte-wise order is Python's code point order).  Python dictionaries are
    insertion-ordered association lists with unique keys.  Stateful code is
    written in a state-and-exception monad over a record holding the object
    store, the class attributes, the file system, the working directory and
    the environment. *)

From Stdlib Require Import ZArith Lia Ascii String.
From stdpp Require Import base list strings sorting gmap.

Open Scope string_scope.
Open Scope list_scope.

(** ** Python values *)

(** The values that flow through option parsing and the metadata record. *)
Inductive pyval :=
| PNone
| PBool (b : bool)
| PInt (z : Z)
| PStr (s : string).

Global Instance pyval_eq_dec : EqDecision pyval.
Proof. solve_decision. Defined.

Module Py.

Definition digit (n : nat) : string :=
  String (ascii_of_nat (48 + n)) EmptyString.

Fixpoint decimal_fuel (fuel n : nat) (acc : string) : string :=
  match fuel with
  | O => acc
  | S fuel' =>
      let acc' := digit (n mod 10) +:+ acc in
      match n / 10 with
      | O => acc'
      | q => decimal_fuel fuel' q acc'
      end
  end.

(** [str(n)] for a natural number. *)
Definition str_nat (n : nat) : string := decimal_fuel (S n) n "".

(** [str(z)] for an [int]. *)
Definition str_int (z : Z) : string :=
  match z with
  | Z0 => "0"
  | Zpos p => str_nat (Pos.to_nat p)
  | Zneg p => "-" +:+ str_nat (Pos.to_nat p)
  end.

(** Python's [str(v)]. *)
Definition str (v : pyval) : string :=
  match v with
  | PNone => "None"
  | PBool true => "True"
  | PBool false => "False"
  | PInt z => str_int z
  | PStr s => s
  end.

(** Python's truth value of [v], as tested by [if v:] and [v or w]. *)
Definition truthy (v : pyval) : bool :=
  match v with
  | PNone => false
  | PBool b => b
  | PInt z => negb (Z.eqb z 0)
  | PStr s => negb (String.eqb s "")
  end.

End Py.

(** ** Dictionaries *)

Module Dict.

(** A [dict] with [str] keys: association list in insertion order. *)
Definition t (V : Type) := list (string * V).

Definition keys {V} (d : t V) : list string := d.*1.
Definition values {V} (d : t V) : list V := d.*2.

Fixpoint get {V} (d : t V) (k : string) : option V :=
  match d with
  | [] => None
  | (k', v) :: d' => if decide (k' = k) then Some v else get d' k
  end.

(** [d[k] = v]: an existing key keeps its position, a new key goes last. *)
Fixpoint set {V} (d : t V) (k : string) (v : V) : t V :=
  match d with
  | [] => [(k, v)]
  | (k', v') :: d' =>
      if decide (k' = k) then (k, v) :: d' else (k', v') :: set d' k v
  end.

(** [d.update(e)] *)
Definition update {V} (d e : t V) : t V :=
  foldl (fun acc kv => set acc kv.1 kv.2) d e.

(** [del d[k]] (on a present key). *)
Definition del {V} (d : t V) (k : string) : t V :=
  filter (fun kv => kv.1 ≠ k) d.

Definition mem {V} (d : t V) (k : string) : bool :=
  bool_decide (is_Some (get d k)).

(** The invariant of a dictionary: keys are unique. *)
Definition wf {V} (d : t V) : Prop := NoDup (keys d).

End Dict.

(** [sorted(d.keys())]: the order of [str] is the order of the code
    points, which on UTF-8 text is the byte-wise order [String.le]. *)
Definition sorted_keys {V} (d : Dict.t V) : list string :=
  merge_sort String.le (Dict.keys d).

(** ** hashlib.md5 (RFC 1321) *)

Module MD5.

Open Scope Z_scope.

Definition mask32 (x : Z) : Z := Z.land x 4294967295.
Definition add32 (x y : Z) : Z := mask32 (x + y).
Definition not32 (x : Z) : Z := Z.lxor x 4294967295.
Definition rotl32 (x : Z) (c : Z) : Z :=
  mask32 (Z.lor (Z.shiftl x c) (Z.shiftr x (32 - c))).

Definition K : list Z :=
  [ 3614090360; 3905402710; 606105819; 3250441966;
    4118548399; 1200080426; 2821735955; 4249261313;
    1770035416; 2336552879; 4294925233; 2304563134;
    1804603682; 4254626195; 2792965006; 1236535329;
    4129170786; 3225465664; 643717713; 3921069994;
    3593408605; 38016083; 3634488961; 3889429448;
    568446438; 3275163606; 4107603335; 1163531501;
    2850285829; 4243563512; 1735328473; 2368359562;
    4294588738; 2272392833; 1839030562; 4259657740;
    2763975236; 1272893353; 4139469664; 3200236656;
    681279174; 3936430074; 3572445317; 76029189;
    3654602809; 3873151461; 530742520; 3299628645;
    4096336452; 1126891415; 2878612391; 4237533241;
    1700485571; 2399980690; 4293915773; 2240044497;
    1873313359; 4264355552; 2734768916; 1309151649;
    4149444226; 3174756917; 718787259; 3951481745 ].

Definition S : list Z :=
  [ 7; 12; 17; 22; 7; 12; 17; 22; 7; 12; 17; 22; 7; 12; 17; 22;
    5; 9; 14; 20; 5; 9; 14; 20; 5; 9; 14; 20; 5; 9; 14; 20;
    4; 11; 16; 23; 4; 11; 16; 23; 4; 11; 16; 23; 4; 11; 16; 23;
    6; 10; 15; 21; 6; 10; 15; 21; 6; 10; 15; 21; 6; 10; 15; 21 ].

Definition nthZ (l : list Z) (i : nat) : Z := default 0 (l !! i).

Record regs := Regs { rA : Z; rB : Z; rC : Z; rD : Z }.

Definition init : regs :=
  Regs 1732584193 4023233417 2562383102 271733878.

(** One of the 64 operations on a block of sixteen words [M]. *)
Definition step (M : list Z) (r : regs) (i : nat) : regs :=
  let '(Regs a b c d) := r in
  let '(f, g) :=
    if (i <? 16)%nat then
      (Z.lor (Z.land b c) (Z.land (not32 b) d), i)
    else if (i <? 32)%nat then
      (Z.lor (Z.land d b) (Z.land (not32 d) c), ((5 * i + 1) mod 16)%nat)
    else if (i <? 48)%nat then
      (Z.lxor (Z.lxor b c) d, ((3 * i + 5) mod 16)%nat)
    else
      (Z.lxor c (Z.lor b (not32 d)), ((7 * i) mod 16)%nat) in
  let f' := add32 (add32 (add32 f a) (nthZ K i)) (nthZ M g) in
  Regs d (add32 b (rotl32 f' (nthZ S i))) b c.

Definition block (r : regs) (M : list Z) : regs :=
  let r' := foldl (step M) r (seq 0 64) in
  Regs (add32 (rA r) (rA r')) (add32 (rB r) (rB r'))
       (add32 (rC r) (rC r')) (add32 (rD r) (rD r')).

(** Little-endian words of a byte sequence whose length is a multiple of 4. *)
Fixpoint words (bs : list Z) : list Z :=
  match bs with
  | b0 :: b1 :: b2 :: b3 :: bs' =>
      (b0 + 256 * b1 + 65536 * b2 + 16777216 * b3) :: words bs'
  | _ => []
  end.

Fixpoint chunks (fuel : nat) (ws : list Z) : list (list Z) :=
  match fuel with
  | O => []
  | Datatypes.S fuel' =>
      match ws with
      | [] => []
      | _ => take 16 ws :: chunks fuel' (drop 16 ws)
      end
  end.

Definition le_bytes (n : nat) (x : Z) : list Z :=
  (fun i => Z.land (Z.shiftr x (8 * Z.of_nat i)) 255) <$> seq 0 n.

Definition pad (bs : list Z) : list Z :=
  let n := length bs in
  let zeros := ((64 + 55 - n mod 64) mod 64)%nat in
  bs ++ [128] ++ replicate zeros 0 ++ le_bytes 8 (8 * Z.of_nat n).

Definition digest (bs : list Z) : list Z :=
  let ws := words (pad bs) in
  let r := foldl block init (chunks (Datatypes.S (length ws)) ws) in
  le_bytes 4 (rA r) ++ le_bytes 4 (rB r) ++
  le_bytes 4 (rC r) ++ le_bytes 4 (rD r).

Definition hexchar (x : Z) : ascii :=
  ascii_of_nat (Z.to_nat (if x <? 10 then 48 + x else 87 + x)).

Fixpoint hex (bs : list Z) : string :=
  match bs with
  | [] => EmptyString
  | b :: bs' => String (hexchar (b / 16)) (String (hexchar (b mod 16)) (hex bs'))
  end.

Fixpoint bytes (s : string) : list Z :=
  match s with
  | EmptyString => []
  | String c s' => Z.of_nat (nat_of_ascii c) :: bytes s'
  end.

(** The hash object [m = hashlib.md5()]: the bytes fed so far. *)
Definition hasher := string.
Definition new : hasher := "".
(** [m.update(data)] *)
Definition update (m : hasher) (data : string) : hasher := m +:+ data.
(** [m.hexdigest()] *)
Definition hexdigest (m : hasher) : string := hex (digest (bytes m)).

End MD5.

(** ** Exceptions and the state-and-exception monad *)

(** The exception classes the engine raises or tests for, and the classes
    defined elsewhere: [UserException cls bases] is a class named [cls]
    that derives from the classes [bases] (a class that derives from none
    of the classes listed here has no bases).  [except RuntimeError]
    catches [RuntimeError] and every class that derives from it, among them
    [NotImplementedError] and [RecursionError]; [except OSError] catches
    [OSError], its file-system subclasses and what derives from them. *)
#[warnings="-register-all"] Inductive exc_class :=
| RuntimeError
| NotImplementedError
| RecursionError
| OSError
| FileNotFoundError
| FileExistsError
| NotADirectoryError
| IsADirectoryError
| AssertionError
| AttributeError
| KeyError
| TypeError
| ValueError
| JSONDecodeError
| ExperimentError
| SystemExit
| UserException (cls : string) (bases : list exc_class).

Record exn := Exn { exn_class : exc_class; exn_msg : string }.

(** [issubclass(c, RuntimeError)] *)
Fixpoint issubclass_RuntimeError (c : exc_class) : bool :=
  match c with
  | RuntimeError | NotImplementedError | RecursionError => true
  | UserException _ bases => existsb issubclass_RuntimeError bases
  | _ => false
  end.

(** [issubclass(c, OSError)] *)
Fixpoint issubclass_OSError (c : exc_class) : bool :=
  match c with
  | OSError | FileNotFoundError | FileExistsError
  | NotADirectoryError | IsADirectoryError => true
  | UserException _ bases => existsb issubclass_OSError bases
  | _ => false
  end.

(** [issubclass(c, json.JSONDecodeError)] *)
Fixpoint issubclass_JSONDecodeError (c : exc_class) : bool :=
  match c with
  | JSONDecodeError => true
  | UserException _ bases => existsb issubclass_JSONDecodeError bases
  | _ => false
  end.

Definition isinstance_RuntimeError (e : exn) : bool :=
  issubclass_RuntimeError (exn_class e).

Definition isinstance_OSError (e : exn) : bool :=
  issubclass_OSError (exn_class e).

Definition isinstance_JSONDecodeError (e : exn) : bool :=
  issubclass_JSONDecodeError (exn_class e).

Inductive outcome (A : Type) :=
| Ret (a : A)
| Raise (e : exn).
Arguments Ret {A} a.
Arguments Raise {A} e.

(** A computation over a state [S]: the state survives an exception. *)
Definition ST (S A : Type) : Type := S → outcome A * S.

Global Instance ST_ret {S} : MRet (ST S) := λ A a s, (Ret a, s).
Global Instance ST_bind {S} : MBind (ST S) := λ A B f c s,
  match c s with
  | (Ret a, s') => f a s'
  | (Raise e, s') => (Raise e, s')
  end.

Definition raise {S A} (c : exc_class) (msg : string) : ST S A :=
  λ s, (Raise (Exn c msg), s).
Definition reraise {S A} (e : exn) : ST S A := λ s, (Raise e, s).
Definition gets {S A} (f : S → A) : ST S A := λ s, (Ret (f s), s).
Definition modify {S} (f : S → S) : ST S unit := λ s, (Ret tt, f s).

(** [try: c  except: h] *)
Definition try_except {S A} (c : ST S A) (h : exn → ST S A) : ST S A :=
  λ s, match c s with
       | (Ret a, s') => (Ret a, s')
       | (Raise e, s') => h e s'
       end.

(** [try: c  finally: f] *)
Definition try_finally {S A} (c : ST S A) (f : ST S unit) : ST S A :=
  λ s, let '(r, s') := c s in
       match f s' with
       | (Ret _, s'') => (r, s'')
       | (Raise e, s'') => (Raise e, s'')
       end.

(** [for x in xs: body x] *)
Fixpoint for_each {S A} (xs : list A) (body : A → ST S unit) : ST S unit :=
  match xs with
  | [] => mret tt
  | x :: xs' => body x ;; for_each xs' body
  end.

(** ** os.path *)

Module OSPath.

(** An absolute, normalised path: its components from the root. *)
Definition path := list string.

Definition slash : ascii := ascii_of_nat 47.

(** [s.split("/")] *)
Fixpoint split (s : string) : list string :=
  match s with
  | EmptyString => [EmptyString]
  | String c s' =>
      if decide (c = slash) then EmptyString :: split s'
      else match split s' with
           | h :: t => String c h :: t
           | [] => [String c EmptyString]
           end
  end.

Definition isabs (s : string) : bool :=
  match s with
  | String c _ => bool_decide (c = slash)
  | EmptyString => false
  end.

Definition contains_slash (s : string) : bool :=
  bool_decide (slash ∈ list_ascii_of_string s).

(** Collapse empty components, [.] and [..]; [acc] is the reversed
    directory reached so far. *)
Fixpoint norm (acc : list string) (comps : list string) : path :=
  match comps with
  | [] => reverse acc
  | c :: cs =>
      if decide (c = "" ∨ c = ".") then norm acc cs
      else if decide (c = "..") then norm (tail acc) cs
      else norm (c :: acc) cs
  end.

(** The absolute path a path string denotes in working directory [cwd]. *)
Definition resolve (cwd : path) (s : string) : path :=
  norm (if isabs s then [] else reverse cwd) (split s).

Fixpoint render_rel (p : path) : string :=
  match p with
  | [] => ""
  | [c] => c
  | c :: p' => c +:+ "/" +:+ render_rel p'
  end.

Definition render (p : path) : string := "/" +:+ render_rel p.

(** [os.path.abspath(s)] *)
Definition abspath (cwd : path) (s : string) : string := render (resolve cwd s).

Definition ends_with_slash (s : string) : bool :=
  match last (list_ascii_of_string s) with
  | Some c => bool_decide (c = slash)
  | None => false
  end.

(** [os.path.join(a, b)] *)
Definition join (a b : string) : string :=
  if isabs b then b
  else if bool_decide (a = "") || ends_with_slash a then a +:+ b
  else a +:+ "/" +:+ b.

(** [os.path.basename(s)] *)
Definition basename (s : string) : string := default "" (last (split s)).

End OSPath.

(** ** Objects, classes and the world *)

(** A location of the object store. *)
Definition loc := nat.

(** What a dictionary of parameters holds under a key: [None], a function
    object (a deferred input, identified by its code), or a reference to a
    parameter object. *)
Inductive ref :=
| RNone
| RLambda (code : nat)
| RObj (l : loc).

Inductive fskind := KFile | KDirectory.

(** What [json.load] returns: an object with scalar members, or a scalar. *)
Inductive json :=
| JDict (d : Dict.t pyval)
| JValue (v : pyval).

(** The option parser: option string, [dest] and default of every option. *)
Definition optparser := list (string * string * pyval).

(** The attributes of an [Experiment] instance. *)
Record instance := Instance {
  cls : string;
  title : string;
  name : option string;
  experiment_instance : pyval;
  base_directory : option string;
  metadata : option json;
  inputs : Dict.t ref;
  outputs : Dict.t ref;
  subobjects : Dict.t ref;
  tmp_directory : ref;
  startup_directory : option string;
  parser : optparser;
  opts : option (Dict.t pyval);
  args : list string
}.

Definition set_title (v : string) (e : instance) : instance :=
  Instance (cls e) v (name e) (experiment_instance e) (base_directory e) (metadata e) (inputs e) (outputs e) (subobjects e) (tmp_directory e) (startup_directory e) (parser e) (opts e) (args e).
Definition set_name (v : option string) (e : instance) : instance :=
  Instance (cls e) (title e) v (experiment_instance e) (base_directory e) (metadata e) (inputs e) (outputs e) (subobjects e) (tmp_directory e) (startup_directory e) (parser e) (opts e) (args e).
Definition set_experiment_instance (v : pyval) (e : instance) : instance :=
  Instance (cls e) (title e) (name e) v (base_directory e) (metadata e) (inputs e) (outputs e) (subobjects e) (tmp_directory e) (startup_directory e) (parser e) (opts e) (args e).
Definition set_base_directory (v : option string) (e : instance) : instance :=
  Instance (cls e) (title e) (name e) (experiment_instance e) v (metadata e) (inputs e) (outputs e) (subobjects e) (tmp_directory e) (startup_directory e) (parser e) (opts e) (args e).
Definition set_metadata (v : option json) (e : instance) : instance :=
  Instance (cls e) (title e) (name e) (experiment_instance e) (base_directory e) v (inputs e) (outputs e) (subobjects e) (tmp_directory e) (startup_directory e) (parser e) (opts e) (args e).
Definition set_inputs (v : Dict.t ref) (e : instance) : instance :=
  Instance (cls e) (title e) (name e) (experiment_instance e) (base_directory e) (metadata e) v (outputs e) (subobjects e) (tmp_directory e) (startup_directory e) (parser e) (opts e) (args e).
Definition set_outputs (v : Dict.t ref) (e : instance) : instance :=
  Instance (cls e) (title e) (name e) (experiment_instance e) (base_directory e) (metadata e) (inputs e) v (subobjects e) (tmp_directory e) (startup_directory e) (parser e) (opts e) (args e).
Definition set_subobjects (v : Dict.t ref) (e : instance) : instance :=
  Instance (cls e) (title e) (name e) (experiment_instance e) (base_directory e) (metadata e) (inputs e) (outputs e) v (tmp_directory e) (startup_directory e) (parser e) (opts e) (args e).
Definition set_tmp_directory (v : ref) (e : instance) : instance :=
  Instance (cls e) (title e) (name e) (experiment_instance e) (base_directory e) (metadata e) (inputs e) (outputs e) (subobjects e) v (startup_directory e) (parser e) (opts e) (args e).
Definition set_startup_directory (v : option string) (e : instance) : instance :=
  Instance (cls e) (title e) (name e) (experiment_instance e) (base_directory e) (metadata e) (inputs e) (outputs e) (subobjects e) (tmp_directory e) v (parser e) (opts e) (args e).
Definition set_parser (v : optparser) (e : instance) : instance :=
  Instance (cls e) (title e) (name e) (experiment_instance e) (base_directory e) (metadata e) (inputs e) (outputs e) (subobjects e) (tmp_directory e) (startup_directory e) v (opts e) (args e).
Definition set_opts (v : option (Dict.t pyval)) (e : instance) : instance :=
  Instance (cls e) (title e) (name e) (experiment_instance e) (base_directory e) (metadata e) (inputs e) (outputs e) (subobjects e) (tmp_directory e) (startup_directory e) (parser e) v (args e).
Definition set_args (v : list string) (e : instance) : instance :=
  Instance (cls e) (title e) (name e) (experiment_instance e) (base_directory e) (metadata e) (inputs e) (outputs e) (subobjects e) (tmp_directory e) (startup_directory e) (parser e) (opts e) v.

(** Parameter objects.  [OString] is [types.String], [OFilesystemObject]
    is [types.File] or [types.Directory], [OExperiment] an experiment used
    as a parameter, [OOther] any object that is no parameter at all. *)
Inductive obj :=
| OString (name : option string) (value : pyval)
| OFilesystemObject (kind : fskind) (name : option string)
    (object_name : pyval) (base_dir : option pyval) (olddir : option string)
| OExperiment (e : instance)
| OOther.

(** The class attributes of an experiment class. *)
Record pyclass := PyClass {
  cls_version : pyval;
  cls_suspend_on_error : bool;
  cls_inputs : Dict.t ref;
  cls_outputs : Dict.t ref
}.

Inductive node :=
| NFile (content : string)
| NDir
| NSymlink (target : string).

Global Instance node_eq_dec : EqDecision node.
Proof. solve_decision. Defined.

(** Everything a Python statement can read or change, apart from the
    attributes of the experiment that executes. *)
Record world := World {
  heap : list obj;
  classes : gmap string pyclass;
  fs : gmap OSPath.path node;
  cwd : OSPath.path;
  environ : gmap string string;
  clock : nat;
  entropy : nat;
  stdout : list string
}.

Definition set_heap (v : list obj) (w : world) : world :=
  World v (classes w) (fs w) (cwd w) (environ w) (clock w) (entropy w) (stdout w).
Definition set_classes (v : gmap string pyclass) (w : world) : world :=
  World (heap w) v (fs w) (cwd w) (environ w) (clock w) (entropy w) (stdout w).
Definition set_fs (v : gmap OSPath.path node) (w : world) : world :=
  World (heap w) (classes w) v (cwd w) (environ w) (clock w) (entropy w) (stdout w).
Definition set_cwd (v : OSPath.path) (w : world) : world :=
  World (heap w) (classes w) (fs w) v (environ w) (clock w) (entropy w) (stdout w).
Definition set_environ (v : gmap string string) (w : world) : world :=
  World (heap w) (classes w) (fs w) (cwd w) v (clock w) (entropy w) (stdout w).
Definition set_clock (v : nat) (w : world) : world :=
  World (heap w) (classes w) (fs w) (cwd w) (environ w) v (entropy w) (stdout w).
Definition set_entropy (v : nat) (w : world) : world :=
  World (heap w) (classes w) (fs w) (cwd w) (environ w) (clock w) v (stdout w).
Definition set_stdout (v : list string) (w : world) : world :=
  World (heap w) (classes w) (fs w) (cwd w) (environ w) (clock w) (entropy w) v.

(** ** The operating system *)

Module OS.

Import OSPath.

(** The node at a path; the root is a directory. *)
Definition node_at (m : gmap path node) (p : path) : option node :=
  match p with
  | [] => Some NDir
  | _ => m !! p
  end.

Definition parent (p : path) : path := removelast p.

(** The path a final symbolic link leads to (links in the middle of a
    path are not traversed: the engine creates links only as the
    latest-result pointer). *)
Definition follow (m : gmap path node) (p : path) : path :=
  match node_at m p with
  | Some (NSymlink t) => resolve (parent p) t
  | _ => p
  end.

(** [os.path.exists(s)] *)
Definition exists_ (s : string) : ST world bool :=
  gets (λ w, bool_decide (s ≠ "") &&
             bool_decide (is_Some (node_at (fs w) (follow (fs w) (resolve (cwd w) s))))).

(** [os.path.isdir(s)] *)
Definition isdir (s : string) : ST world bool :=
  gets (λ w, bool_decide (s ≠ "") &&
             bool_decide (node_at (fs w) (follow (fs w) (resolve (cwd w) s)) = Some NDir)).

(** [os.path.islink(s)] *)
Definition islink (s : string) : ST world bool :=
  gets (λ w, match node_at (fs w) (resolve (cwd w) s) with
             | Some (NSymlink _) => true
             | _ => false
             end).

(** [os.path.realpath(s)].  Links are not resolved here: the engine makes
    a link only as the pointer to the latest result, and such a pointer is
    never passed back in as a path; the result is that of [abspath]. *)
Definition realpath (s : string) : ST world string :=
  gets (λ w, abspath (cwd w) s).

Definition abspath (s : string) : ST world string :=
  gets (λ w, OSPath.abspath (cwd w) s).

(** [os.mkdir(s)] *)
Definition mkdir (s : string) : ST world unit := λ w,
  let p := resolve (cwd w) s in
  if bool_decide (s = "") then (Raise (Exn FileNotFoundError s), w)
  else match node_at (fs w) p with
  | Some _ => (Raise (Exn FileExistsError s), w)
  | None =>
      match node_at (fs w) (parent p) with
      | Some NDir => (Ret tt, set_fs (<[p := NDir]> (fs w)) w)
      | Some _ => (Raise (Exn NotADirectoryError s), w)
      | None => (Raise (Exn FileNotFoundError s), w)
      end
  end.

(** [shutil.rmtree(s)] *)
Definition rmtree (s : string) : ST world unit := λ w,
  let p := resolve (cwd w) s in
  if bool_decide (s = "") then (Raise (Exn FileNotFoundError s), w)
  else match node_at (fs w) p with
  | Some NDir =>
      (Ret tt, set_fs (filter (λ kv, ¬ p `prefix_of` kv.1) (fs w)) w)
  | Some (NSymlink _) => (Raise (Exn OSError "Cannot call rmtree on a symbolic link"), w)
  | Some (NFile _) => (Raise (Exn NotADirectoryError s), w)
  | None => (Raise (Exn FileNotFoundError s), w)
  end.

(** [os.unlink(s)] *)
Definition unlink (s : string) : ST world unit := λ w,
  let p := resolve (cwd w) s in
  match fs w !! p with
  | Some NDir => (Raise (Exn IsADirectoryError s), w)
  | Some _ => (Ret tt, set_fs (delete p (fs w)) w)
  | None => (Raise (Exn FileNotFoundError s), w)
  end.

(** [os.symlink(target, s)] *)
Definition symlink (target s : string) : ST world unit := λ w,
  let p := resolve (cwd w) s in
  match node_at (fs w) p with
  | Some _ => (Raise (Exn FileExistsError s), w)
  | None =>
      match node_at (fs w) (parent p) with
      | Some NDir => (Ret tt, set_fs (<[p := NSymlink target]> (fs w)) w)
      | Some _ => (Raise (Exn NotADirectoryError s), w)
      | None => (Raise (Exn FileNotFoundError s), w)
      end
  end.

(** [with open(s, "w") as fd: fd.write(content)] *)
Definition write_file (s content : string) : ST world unit := λ w,
  let p := follow (fs w) (resolve (cwd w) s) in
  if bool_decide (s = "") then (Raise (Exn FileNotFoundError s), w)
  else match node_at (fs w) p with
  | Some NDir => (Raise (Exn IsADirectoryError s), w)
  | _ =>
      match node_at (fs w) (parent p) with
      | Some NDir => (Ret tt, set_fs (<[p := NFile content]> (fs w)) w)
      | Some _ => (Raise (Exn NotADirectoryError s), w)
      | None => (Raise (Exn FileNotFoundError s), w)
      end
  end.

(** [with open(s, "r") as fd: fd.read()] *)
Definition read_file (s : string) : ST world string := λ w,
  let p := follow (fs w) (resolve (cwd w) s) in
  if bool_decide (s = "") then (Raise (Exn FileNotFoundError s), w)
  else match node_at (fs w) p with
  | Some (NFile content) => (Ret content, w)
  | Some NDir => (Raise (Exn IsADirectoryError s), w)
  | _ => (Raise (Exn FileNotFoundError s), w)
  end.

(** [os.chdir(s)] *)
Definition chdir (s : string) : ST world unit := λ w,
  let p := follow (fs w) (resolve (cwd w) s) in
  if bool_decide (s = "") then (Raise (Exn FileNotFoundError s), w)
  else match node_at (fs w) p with
  | Some NDir => (Ret tt, set_cwd p w)
  | Some _ => (Raise (Exn NotADirectoryError s), w)
  | None => (Raise (Exn FileNotFoundError s), w)
  end.

Definition hidden (entry : string) : bool :=
  match entry with
  | String c _ => bool_decide (c = ascii_of_nat 46)
  | EmptyString => false
  end.

(** The entries of the directory at [p]. *)
Definition entries (m : gmap path node) (p : path) : list string :=
  omap (λ kv, match last kv.1 with
              | Some entry => if bool_decide (kv.1 = p ++ [entry]) then Some entry else None
              | None => None
              end) (map_to_list m).

(** [glob.glob(os.path.join(dir, '*'))]: the pattern [*] does not match
    entries whose name starts with a dot.  The directory part is taken
    literally. *)
Definition glob_star (dir : string) : ST world (list string) :=
  gets (λ w, let p := resolve (cwd w) dir in
             match node_at (fs w) (follow (fs w) p) with
             | Some NDir =>
                 (λ entry, join dir entry) <$>
                   filter (λ entry, hidden entry = false) (entries (fs w) (follow (fs w) p))
             | _ => []
             end).

(** [os.getenv(name)] *)
Definition getenv (name : string) : ST world (option string) :=
  gets (λ w, environ w !! name).

Definition TMP_MAX : nat := 100 * 100.

Fixpoint fresh_temp_name (attempts : nat) (m : gmap path node) (seed : nat) : option (nat * path) :=
  match attempts with
  | O => None
  | S attempts' =>
      let p := ["tmp"; "tmp" +:+ Py.str_nat seed] in
      match m !! p with
      | None => Some (seed, p)
      | Some _ => fresh_temp_name attempts' m (S seed)
      end
  end.

(** [tempfile.mkdtemp()]: a new directory below [/tmp] under a name not
    in use, drawn from the world's entropy. *)
Definition mkdtemp : ST world string := λ w,
  match fresh_temp_name TMP_MAX (fs w) (entropy w) with
  | None => (Raise (Exn FileExistsError "No usable temporary directory name found"), w)
  | Some (seed, p) =>
      match mkdir (render p) (set_entropy (S seed) w) with
      | (Ret _, w') => (Ret (render p), w')
      | (Raise e, w') => (Raise e, w')
      end
  end.

(** [str(datetime.datetime.now())]; a time stamp is rendered by its tick. *)
Definition now : ST world pyval := λ w,
  (Ret (PStr (Py.str_nat (clock w))), set_clock (S (clock w)) w).

(** [print(line)] *)
Definition print (line : string) : ST world unit :=
  modify (λ w, set_stdout (stdout w ++ [line]) w).

(** Allocation of a new object, attribute reads and writes. *)
Definition alloc (o : obj) : ST world loc := λ w,
  (Ret (length (heap w)), set_heap (heap w ++ [o]) w).

Definition read (l : loc) : ST world obj := λ w,
  match heap w !! l with
  | Some o => (Ret o, w)
  | None => (Raise (Exn AttributeError "dangling reference"), w)
  end.

Definition write (l : loc) (o : obj) : ST world unit :=
  modify (λ w, set_heap (<[l := o]> (heap w)) w).

End OS.

(** ** versuchung/types.py: the leaf parameter types *)

Module Types.

(** [Type.name]: reading it before the container has assigned it fails. *)
Definition name_of (o : obj) : ST world string :=
  match o with
  | OString (Some n) _ => mret n
  | OFilesystemObject _ (Some n) _ _ _ => mret n
  | OExperiment e =>
      match name e with
      | Some n => mret n
      | None => raise TypeError "name is None"
      end
  | _ => raise AttributeError "name"
  end.

(** [Type.name = n] *)
Definition with_name (n : string) (o : obj) : obj :=
  match o with
  | OString _ v => OString (Some n) v
  | OFilesystemObject k _ on bd od => OFilesystemObject k (Some n) on bd od
  | OExperiment e => OExperiment (set_name (Some n) e)
  | OOther => OOther
  end.

(** [isinstance(o, InputParameter)] and [isinstance(o, OutputParameter)] *)
Definition is_InputParameter (o : obj) : bool :=
  match o with
  | OString _ _ | OFilesystemObject _ _ _ _ _ | OExperiment _ => true
  | OOther => false
  end.

Definition is_OutputParameter (o : obj) : bool :=
  match o with
  | OFilesystemObject _ _ _ _ _ => true
  | _ => false
  end.

(** [InputParameter.__parser_option(option)] *)
Definition parser_option (o : obj) (option : option string) : ST world string :=
  n ← name_of o;
  match option with
  | Some opt => if bool_decide (opt = "") then mret n else mret (n +:+ "-" +:+ opt)
  | None => mret n
  end.

(** [parser.add_option('', '--' + option, dest=option, default=default)];
    an option string that is already taken is a conflict. *)
Definition add_option (p : optparser) (optstr dest : string) (default : pyval)
  : ST world optparser :=
  if bool_decide (optstr ∈ p.*1.*1)
  then raise (UserException "OptionConflictError" []) optstr
  else mret (p ++ [(optstr, dest, default)]).

(** [InputParameter.inp_parser_add(parser, option, default)] *)
Definition inp_parser_add (o : obj) (p : optparser) (option : option string)
    (default : pyval) : ST world optparser :=
  opt ← parser_option o option;
  add_option p ("--" +:+ opt) opt default.

(** [InputParameter.inp_parser_extract(opts, option)] *)
Definition inp_parser_extract (o : obj) (opts : Dict.t pyval) (option : option string)
  : ST world pyval :=
  opt ← parser_option o option;
  mret (default PNone (Dict.get opts opt)).

(** [String.inp_setup_cmdline_parser], [FilesystemObject.inp_setup_cmdline_parser] *)
Definition inp_setup_cmdline_parser (o : obj) (p : optparser) : ST world optparser :=
  match o with
  | OString _ v => inp_parser_add o p None v
  | OFilesystemObject _ _ on _ _ => inp_parser_add o p None on
  | _ => raise AttributeError "inp_setup_cmdline_parser"
  end.

(** [String.inp_extract_cmdline_parser], [FilesystemObject.inp_extract_cmdline_parser] *)
Definition inp_extract_cmdline_parser (l : loc) (opts : Dict.t pyval) : ST world unit :=
  o ← OS.read l;
  match o with
  | OString n _ =>
      v ← inp_parser_extract o opts None;
      OS.write l (OString n v)
  | OFilesystemObject k n _ bd od =>
      v ← inp_parser_extract o opts None;
      OS.write l (OFilesystemObject k n v bd od)
  | _ => raise AttributeError "inp_extract_cmdline_parser"
  end.

(** [String.inp_metadata], [FilesystemObject.inp_metadata] *)
Definition inp_metadata (o : obj) : ST world (Dict.t pyval) :=
  match o with
  | OString _ v => n ← name_of o; mret [(n, v)]
  | OFilesystemObject _ _ on _ _ => n ← name_of o; mret [(n, on)]
  | _ => raise AttributeError "inp_metadata"
  end.

(** [FilesystemObject.path] *)
Definition path (o : obj) : ST world string :=
  match o with
  | OFilesystemObject _ _ (PStr on) None _ => OS.abspath on
  | OFilesystemObject _ _ (PStr on) (Some (PStr bd)) _ => mret (OSPath.join bd on)
  | OFilesystemObject _ _ _ _ _ => raise TypeError "path"
  | _ => raise AttributeError "path"
  end.

(** [File.outp_setup_output] and [Directory.outp_setup_output] *)
Definition outp_setup_output (o : obj) : ST world unit :=
  match o with
  | OFilesystemObject KFile _ _ _ _ => p ← path o; OS.write_file p ""
  | OFilesystemObject KDirectory _ _ _ _ => p ← path o; OS.mkdir p
  | _ => raise AttributeError "outp_setup_output"
  end.




End Types.

(** ** versuchung/experiment.py: the lifecycle engine *)

(** Observation points of one execution: the legacy [eval] of a record is
    attempted, an input has been extracted from the options, a deferred
    input has been computed and installed, the identity has been computed,
    the set-up of an output starts, the user's [run] starts.  The log is
    ghost state: no Python code reads it. *)
Inductive event :=
| EvEval
| EvExtracted (name : string)
| EvResolved (name : string)
| EvIdentity (identity : string)
| EvOutputSetup (name : string)
| EvRun.

Global Instance event_eq_dec : EqDecision event.
Proof. solve_decision. Defined.

(** The state of a method call: the attributes of [self], the world, and
    the log. *)
Record state := State {
  this : instance;
  world_of : world;
  log : list event
}.

Definition lift {A} (c : ST world A) : ST state A := λ s,
  let '(r, w') := c (world_of s) in (r, State (this s) w' (log s)).

Definition self {A} (f : instance → A) : ST state A := gets (λ s, f (this s)).

Definition self_set (f : instance → instance) : ST state unit :=
  modify (λ s, State (f (this s)) (world_of s) (log s)).

Definition emit (ev : event) : ST state unit :=
  modify (λ s, State (this s) (world_of s) (log s ++ [ev])).

(** A method of [self] written by the user: it works on the attributes
    of [self] and on the world. *)
Definition user {A} (m : instance → world → outcome A * (instance * world))
  : ST state A := λ s,
  let '(r, (e, w)) := m (this s) (world_of s) in (r, State e w (log s)).

(** A method call on the experiment object at [l]: the method runs with
    that object as [self], and the attributes it leaves are stored back. *)
Definition call_method {A} (l : loc) (m : ST state A) : ST state A := λ s,
  match heap (world_of s) !! l with
  | Some (OExperiment e) =>
      let '(r, s') := m (State e (world_of s) (log s)) in
      (r, State (this s)
            (set_heap (<[l := OExperiment (this s')]> (heap (world_of s'))) (world_of s'))
            (log s'))
  | _ => (Raise (Exn AttributeError "not an experiment"), s)
  end.

(** The depth of the interpreter's call stack. *)
Definition recursion_limit : nat := 10 * 100.

(** [copy.deepcopy]: the memo maps every object already copied to its
    copy, so that an object reached twice is copied once.  The parameters
    of an experiment form a tree; an object is entered in the memo when
    its copy is complete. *)
Definition memo := list (loc * loc).

Fixpoint memo_get (m : memo) (l : loc) : option loc :=
  match m with
  | [] => None
  | (l1, l2) :: m' => if decide (l1 = l) then Some l2 else memo_get m' l
  end.

Fixpoint deepcopy_dict (copy : ref → memo → ST world (ref * memo))
    (d : Dict.t ref) (m : memo) : ST world (Dict.t ref * memo) :=
  match d with
  | [] => mret ([], m)
  | (k, r) :: d' =>
      '(r', m1) ← copy r m;
      '(d'', m2) ← deepcopy_dict copy d' m1;
      mret ((k, r') :: d'', m2)
  end.

Fixpoint deepcopy (fuel : nat) (r : ref) (m : memo) : ST world (ref * memo) :=
  match r with
  | RNone => mret (RNone, m)
  | RLambda code => mret (RLambda code, m)
  | RObj l =>
      match memo_get m l with
      | Some l' => mret (RObj l', m)
      | None =>
          match fuel with
          | O => raise RecursionError "maximum recursion depth exceeded"
          | S fuel' =>
              o ← OS.read l;
              match o with
              | OExperiment e =>
                  '(ins, m1) ← deepcopy_dict (deepcopy fuel') (inputs e) m;
                  '(outs, m2) ← deepcopy_dict (deepcopy fuel') (outputs e) m1;
                  '(subs, m3) ← deepcopy_dict (deepcopy fuel') (subobjects e) m2;
                  '(tmp, m4) ← deepcopy fuel' (tmp_directory e) m3;
                  l' ← OS.alloc (OExperiment
                    (set_inputs ins (set_outputs outs
                      (set_subobjects subs (set_tmp_directory tmp e)))));
                  mret (RObj l', (l, l') :: m4)
              | _ => l' ← OS.alloc o; mret (RObj l', (l, l') :: m)
              end
          end
      end
  end.

(** [for (name, x) in d.items(): body name x] *)
Definition for_items {S V} (d : Dict.t V) (body : string → V → ST S unit) : ST S unit :=
  for_each d (λ kv, body kv.1 kv.2).

(** [d[key]] *)
Definition getitem {S V} (d : Dict.t V) (key : string) : ST S V :=
  match Dict.get d key with
  | Some v => mret v
  | None => raise KeyError key
  end.

(** [getattr(opts, key)] *)
Definition getattr {S} (d : Dict.t pyval) (key : string) : ST S pyval :=
  match Dict.get d key with
  | Some v => mret v
  | None => raise AttributeError key
  end.

Definition skip {S} : ST S unit := mret tt.

(** [assert b, msg] *)
Definition assert {S} (b : bool) (msg : string) : ST S unit :=
  if b then skip else raise AssertionError msg.

(** [if b: c] *)
Definition when {S} (b : bool) (c : ST S unit) : ST S unit :=
  if b then c else skip.

Definition as_str {S} (v : pyval) : ST S string :=
  match v with
  | PStr s => mret s
  | _ => raise TypeError "expected str"
  end.

(** The parts of a program that are not the engine's own: the methods a
    user overrides, and the library code outside the sources. *)
Record program := Program {
  (** The user's [run] method: it reads the attributes of the experiment
      and the world, may assign to the attributes and change the world in
      any way, and returns or raises. *)
  run : instance → world → outcome unit * (instance * world);
  (** The user-overridable [filter_metadata] method (default: identity). *)
  filter_metadata : Dict.t pyval → Dict.t pyval;
  (** The code of the deferred inputs: [inp(self)] builds a parameter. *)
  call_lambda : nat → instance → ST world obj;
  (** [before_experiment_run] and [after_experiment_run] of the parameter
      object at a location, called by the experiment given first.  The
      leaf types inherit them from [versuchung.types.Type], in a version of
      that module that is not part of the sources; an experiment used as a
      parameter reaches them through lines 314-316 and 432-434. *)
  Type_before_experiment_run : instance → loc → string → ST world unit;
  Type_after_experiment_run : instance → loc → string → ST world unit;
  (** [Type.before_experiment_run(self, "input")] on the experiment itself. *)
  Type_before_experiment_run_self : instance → ST world unit;
  (** [json.dumps], [json.loads] ([None]: [JSONDecodeError]), the built-in
      [eval] and [OptionParser.parse_args]. *)
  json_dumps : Dict.t pyval → string;
  json_loads : string → option json;
  py_eval : string → ST world json;
  parse_args : optparser → list string → ST world (Dict.t pyval * list string)
}.

Section Engine.

Variable P : program.

(** [self.version] and [self.suspend_on_error] are class attributes. *)
Definition class_of : ST state pyclass :=
  c ← self cls;
  k ← lift (gets (λ w, classes w !! c));
  match k with
  | Some k => mret k
  | None => raise AttributeError c
  end.

(** Modelled from the spec: [self.subobjects.update()] of the absent
    module [versuchung.tools]; the container assigns every parameter it
    holds its key as [name]. *)
Definition subobjects_update : ST state unit :=
  subs ← self subobjects;
  for_items subs (λ name r,
    match r with
    | RObj l => o ← lift (OS.read l); lift (OS.write l (Types.with_name name o))
    | _ => skip
    end).

(** [sys.exit(-1)] after the message. *)
Definition exit_with {A} (msg : string) : ST state A :=
  lift (OS.print msg);; raise SystemExit "-1".

Definition invalid_json_message : string :=
  "metadata is invalid JSON. Set VERSUCHUNG_METADATA_EVAL=1 to load metadata exported via pprint".

(** [Experiment.__reinit__], lines 149-157: the record is read; the
    legacy format is evaluated only if [VERSUCHUNG_METADATA_EVAL] is set
    to a non-empty text. *)
Definition load_metadata (path : string) : ST state json :=
  try_except
    (content ← lift (OS.read_file (OSPath.join path "metadata"));
     match json_loads P content with
     | Some j => mret j
     | None => raise JSONDecodeError "Expecting value"
     end)
    (λ e,
      if isinstance_JSONDecodeError e then
        toggle ← lift (OS.getenv "VERSUCHUNG_METADATA_EVAL");
        if Py.truthy (PStr (default "" toggle)) then
          emit EvEval;;
          content ← lift (OS.read_file (OSPath.join path "metadata"));
          lift (py_eval P content)
        else raise RuntimeError invalid_json_message
      else reraise e).

(** [Experiment.__reinit__], lines 141-161: the result directory and its
    record, when a path is given. *)
Definition load_record (experiment_path : pyval) : ST state (option json) :=
  if Py.truthy experiment_path then
    path ← as_str experiment_path;
    (if OSPath.contains_slash path
     then self_set (set_experiment_instance (PStr (OSPath.basename path)))
     else skip);;
    bd ← lift (OS.realpath (OSPath.join "." path));
    self_set (set_base_directory (Some bd));;
    ex ← lift (OS.exists_ bd);
    assert ex "";;
    metadata ← load_metadata path;
    self_set (set_metadata (Some metadata));;
    mret (Some metadata)
  else
    self_set (set_base_directory None);;
    self_set (set_metadata None);;
    mret None.

(** [Experiment.__reinit__], lines 163-186: the declarations of the class
    are deep-copied into the instance and checked.  [fuel] bounds the
    depth of the copy. *)
Definition copy_declarations (fuel : nat) : ST state unit :=
  (* Copy input and output objects *)
  k ← class_of;
  '(ins, _) ← lift (deepcopy_dict (deepcopy fuel) (cls_inputs k) []);
  self_set (set_inputs ins);;
  '(outs, _) ← lift (deepcopy_dict (deepcopy fuel) (cls_outputs k) []);
  self_set (set_outputs outs);;
  self_set (set_subobjects []);;
  (* Sanity checking for input parameters. *)
  for_items ins (λ name inp,
    match inp with
    | RLambda _ => skip
    | RObj l =>
        o ← lift (OS.read l);
        if Types.is_InputParameter o
        then self_set (λ e, set_subobjects (Dict.set (subobjects e) name inp) e)
        else exit_with (name +:+ " cannot be used as an input parameter")
    | RNone => exit_with (name +:+ " cannot be used as an input parameter")
    end);;
  for_items outs (λ name outp,
    match outp with
    | RObj l =>
        o ← lift (OS.read l);
        if Types.is_OutputParameter o
        then self_set (λ e, set_subobjects (Dict.set (subobjects e) name outp) e)
        else exit_with (name +:+ " cannot be used as an output parameter")
    | _ => exit_with (name +:+ " cannot be used as an output parameter")
    end).

(** [Experiment.__reinit__], lines 138-201. *)
Fixpoint reinit (fuel : nat) (experiment_path : pyval) : ST state unit :=
  match fuel with
  | O => raise RecursionError "maximum recursion depth exceeded"
  | S fuel' =>
      self_set (set_experiment_instance experiment_path);;
      md ← load_record experiment_path;
      copy_declarations fuel';;
      (* Reinit Children Attributes *)
      match md with
      | Some metadata =>
          ins ← self inputs;
          for_items ins (λ name inp,
            let clear := self_set (λ e, set_inputs (Dict.set (inputs e) name RNone) e) in
            match inp with
            | RObj l =>
                o ← lift (OS.read l);
                match o with
                | OExperiment _ =>
                    try_except
                      (v ← match metadata with
                           | JDict d => getitem d name
                           | JValue _ => raise TypeError "not subscriptable"
                           end;
                       call_method l (reinit fuel' v))
                      (λ _, clear)
                | _ => clear
                end
            | _ => clear
            end)
      | None => skip
      end
  end.

(** [Experiment.__init__], lines 114-136, on a new object of class
    [cls self]. *)
Definition init (default_experiment_instance title_arg : option string)
    (inputs_arg outputs_arg : option (Dict.t ref)) : ST state unit :=
  c ← self cls;
  self_set (set_title (match title_arg with
                       | Some t => if bool_decide (t = "") then c else t
                       | None => c
                       end));;
  match inputs_arg with
  | Some d =>
      lift (modify (λ w, set_classes
        (alter (λ k, PyClass (cls_version k) (cls_suspend_on_error k) d (cls_outputs k)) c (classes w)) w))
  | None => skip
  end;;
  match outputs_arg with
  | Some d =>
      lift (modify (λ w, set_classes
        (alter (λ k, PyClass (cls_version k) (cls_suspend_on_error k) (cls_inputs k) d) c (classes w)) w))
  | None => skip
  end;;
  dei ← match default_experiment_instance with
        | Some p =>
            ex ← lift (OS.exists_ p);
            if bool_decide (p ≠ "") && negb ex then mret PNone else mret (PStr p)
        | None => mret PNone
        end;
  reinit recursion_limit dei.

(** An object of class [c] before [__init__] has run: every attribute
    has the value of the class body. *)
Definition blank (c : string) : instance :=
  Instance c "" None PNone None None [] [] [] RNone None [] None [].

(** [Experiment.inp_setup_cmdline_parser], line 437. *)
Definition Experiment_inp_setup_cmdline_parser (e : instance) (p : optparser)
  : ST world optparser :=
  Types.inp_parser_add (OExperiment e) p None (experiment_instance e).

(** [Experiment.inp_extract_cmdline_parser], lines 440-459. *)
Definition Experiment_inp_extract_cmdline_parser (o : Dict.t pyval) : ST state unit :=
  e ← self id;
  v ← lift (Types.inp_parser_extract (OExperiment e) o None);
  self_set (set_experiment_instance v);;
  (if Py.truthy v then skip
   else lift (OS.print ("Missing argument for " +:+ title e));;
        raise ExperimentError "");;
  s ← as_str v;
  (* Resolve symlink relative to the current directory *)
  path ← lift (OS.realpath s);
  path ← lift (OS.abspath path);
  self_set (set_experiment_instance (PStr (OSPath.basename path)));;
  self_set (set_base_directory (Some path));;
  ex ← lift (OS.exists_ path);
  assert ex "Base Directory does not exist";;
  reinit recursion_limit (PStr path);;
  outs ← self outputs;
  for_items outs (λ name outp,
    subs ← self subobjects;
    (if Dict.mem subs name then skip else raise KeyError name);;
    self_set (λ e, set_subobjects (Dict.set (Dict.del (subobjects e) name) name outp) e)).

(** [Experiment.inp_metadata], line 462. *)
Definition Experiment_inp_metadata (e : instance) : ST world (Dict.t pyval) :=
  n ← Types.name_of (OExperiment e);
  mret [(n, experiment_instance e)].

(** Dynamic dispatch of the input protocol on the object a reference
    leads to. *)
Definition deref {S A} (r : ref) (what : string) (k : loc → ST S A) : ST S A :=
  match r with
  | RObj l => k l
  | _ => raise AttributeError what
  end.

Definition obj_inp_setup_cmdline_parser (r : ref) (p : optparser) : ST world optparser :=
  deref r "inp_setup_cmdline_parser" (λ l,
    o ← OS.read l;
    match o with
    | OExperiment e => Experiment_inp_setup_cmdline_parser e p
    | _ => Types.inp_setup_cmdline_parser o p
    end).

Definition obj_inp_extract_cmdline_parser (r : ref) (o : Dict.t pyval) : ST state unit :=
  deref r "inp_extract_cmdline_parser" (λ l,
    x ← lift (OS.read l);
    match x with
    | OExperiment _ => call_method l (Experiment_inp_extract_cmdline_parser o)
    | _ => lift (Types.inp_extract_cmdline_parser l o)
    end).

Definition obj_inp_metadata (r : ref) : ST world (Dict.t pyval) :=
  deref r "inp_metadata" (λ l,
    o ← OS.read l;
    match o with
    | OExperiment e => Experiment_inp_metadata e
    | _ => Types.inp_metadata o
    end).

Definition obj_before_experiment_run (r : ref) (parameter_type : string) : ST state unit :=
  deref r "before_experiment_run" (λ l,
    e ← self id; lift (Type_before_experiment_run P e l parameter_type)).

Definition obj_after_experiment_run (r : ref) (parameter_type : string) : ST state unit :=
  deref r "after_experiment_run" (λ l,
    e ← self id; lift (Type_after_experiment_run P e l parameter_type)).

Definition obj_path (r : ref) : ST world string :=
  deref r "path" (λ l, o ← OS.read l; Types.path o).

(** [Experiment.__setup_parser], lines 205-223. *)
Definition global_options : optparser :=
  [ ("--base-dir", "base_dir", PStr ".");
    ("--dummy", "dummy_result", PBool false);
    ("--symlink", "do_symlink", PNone);
    ("--verbose", "verbose", PInt 0);
    ("--title", "title", PNone) ].

Fixpoint setup_inputs (d : Dict.t ref) (p : optparser) : ST world optparser :=
  match d with
  | [] => mret p
  | (_, RLambda _) :: d' => setup_inputs d' p
  | (_, inp) :: d' =>
      p' ← obj_inp_setup_cmdline_parser inp p;
      setup_inputs d' p'
  end.

Definition setup_parser : ST state unit :=
  ins ← self inputs;
  p ← lift (setup_inputs ins global_options);
  self_set (set_parser p).

(** The part of [__calculate_metadata] that collects the metadata of the
    inputs, lines 351-353. *)
Fixpoint collect_metadata (names : list string) (ins : Dict.t ref)
    (metadata : Dict.t pyval) : ST world (Dict.t pyval) :=
  match names with
  | [] => mret metadata
  | name :: names' =>
      inp ← getitem ins name;
      md ← obj_inp_metadata inp;
      collect_metadata names' ins (Dict.update metadata md)
  end.

(** The hashing loop, lines 354-358. *)
Fixpoint hash_keys (m : MD5.hasher) (calc_metadata : Dict.t pyval)
    (ks : list string) : ST world MD5.hasher :=
  match ks with
  | [] => mret m
  | key :: ks' =>
      v ← getitem calc_metadata key;
      hash_keys (MD5.update m (key +:+ " " +:+ Py.str v)) calc_metadata ks'
  end.

(** Lines 369-375: an existing output directory is emptied. *)
Definition clear_directory (dir : string) : ST world unit :=
  ex ← OS.exists_ dir;
  when ex
    (fs ← OS.glob_star dir;
     for_each fs (λ f, d ← OS.isdir f; if (d : bool) then OS.rmtree f else OS.unlink f)).

(** [Experiment.__calculate_metadata], lines 350-360: the metadata of the
    inputs and the identity.  It returns the local variables [metadata]
    and [m.hexdigest()]. *)
Definition compute_identity : ST state (Dict.t pyval * string) :=
  ins ← self inputs;
  metadata ← lift (collect_metadata (Dict.keys ins) ins []);
  k ← class_of;
  let m := MD5.update MD5.new ("version " +:+ Py.str (cls_version k)) in
  let calc_metadata := filter_metadata P metadata in
  m ← lift (hash_keys m calc_metadata (sorted_keys calc_metadata));
  t ← self title;
  let identity := t +:+ "-" +:+ MD5.hexdigest m in
  self_set (set_experiment_instance (PStr identity));;
  emit (EvIdentity identity);;
  mret (metadata, MD5.hexdigest m).

(** [Experiment.__calculate_metadata], lines 361-392: the result
    directory and the record. *)
Definition store_record (metadata : Dict.t pyval) (hexdigest : string) : ST state unit :=
  o ← self opts;
  o ← match o with Some o => mret o | None => raise AttributeError "__opts" end;
  dummy ← getattr o "dummy_result";
  base ← (if Py.truthy dummy
          then tmp ← self tmp_directory; lift (obj_path tmp)
          else b ← getattr o "base_dir"; as_str b);
  identity ← self experiment_instance;
  identity ← as_str identity;
  bd ← lift (OS.realpath (OSPath.join base identity));
  self_set (set_base_directory (Some bd));;
  lift (clear_directory bd);;
  try_except (lift (OS.mkdir bd))
    (λ e, if isinstance_OSError e then skip else reraise e);;
  (* Here the hash is already calculated *)
  now ← lift OS.now;
  t ← self title;
  k ← class_of;
  let metadata := Dict.set metadata "date-start" now in
  let metadata := Dict.set metadata "experiment-name" (PStr t) in
  let metadata := Dict.set metadata "experiment-version" (cls_version k) in
  let metadata := Dict.set metadata "experiment-hash" (PStr hexdigest) in
  lift (OS.write_file (OSPath.join bd "metadata") (json_dumps P metadata));;
  self_set (set_metadata (Some (JDict metadata))).

(** [Experiment.__calculate_metadata], lines 350-392. *)
Definition calculate_metadata : ST state unit :=
  '(metadata, hexdigest) ← compute_identity;
  store_record metadata hexdigest.

(** [Experiment.before_experiment_run], lines 318-342: the inputs are
    extracted from the options, the deferred inputs are computed, the
    scratch directory is made. *)
Definition resolve_inputs : ST state unit :=
  ins ← self inputs;
  for_items ins (λ name inp,
    match inp with
    | RLambda _ => skip
    | _ =>
        (* no parameter type of the sources returns new options here *)
        o ← self opts;
        o ← match o with Some o => mret o | None => raise AttributeError "__opts" end;
        obj_inp_extract_cmdline_parser inp o;;
        emit (EvExtracted name)
    end);;
  (* After all input parameters are parsed. Execute the calculated input
     parameters *)
  ins ← self inputs;
  for_items ins (λ name inp,
    match inp with
    | RLambda code =>
        e ← self id;
        o ← lift (call_lambda P code e);
        l ← lift (OS.alloc (Types.with_name name o));
        self_set (λ e, set_subobjects (Dict.set (subobjects e) name (RObj l)) e);;
        self_set (λ e, set_inputs (Dict.set (inputs e) name (RObj l)) e);;
        emit (EvResolved name)
    | _ => skip
    end);;
  subobjects_update;;
  (* Now set up the experiment tmp directory *)
  tmp ← lift OS.mkdtemp;
  l ← lift (OS.alloc (OFilesystemObject KDirectory None (PStr tmp) None None));
  self_set (set_tmp_directory (RObj l));;
  self_set (λ e, set_subobjects (Dict.set (subobjects e) "tmp_directory" (RObj l)) e);;
  ins ← self inputs;
  for_each (Dict.values ins) (λ obj, obj_before_experiment_run obj "input").

(** [Experiment.before_experiment_run], lines 346-347. *)
Definition setup_outputs : ST state unit :=
  outs ← self outputs;
  for_items outs (λ name obj,
    emit (EvOutputSetup name);;
    obj_before_experiment_run obj "output").

(** [Experiment.before_experiment_run], lines 312-347. *)
Definition before_experiment_run (parameter_type : string) : ST state unit :=
  if bool_decide (parameter_type = "input") then
    (* When experiment run as input, just run the normal input handlers *)
    e ← self id;
    lift (Type_before_experiment_run_self P e)
  else
    resolve_inputs;;
    calculate_metadata;;
    setup_outputs.

(** [Experiment.execute_setup], lines 264-267: the keyword arguments are
    written into the options object, which [self.__opts] already holds. *)
Fixpoint apply_kwargs (kwargs : Dict.t pyval) : ST state unit :=
  match kwargs with
  | [] => skip
  | (key, v) :: kwargs' =>
      o ← self opts;
      o ← match o with Some o => mret o | None => raise AttributeError "__opts" end;
      if Dict.mem o key then
        self_set (set_opts (Some (Dict.set o key v)));;
        apply_kwargs kwargs'
      else raise AttributeError ("No argument called " +:+ key)
  end.

(** [Experiment.execute_setup], lines 251-271.  Logging and the attribute
    [dynamic_experiment] are not modelled. *)
Definition execute_setup (argv : list string) (kwargs : Dict.t pyval) : ST state unit :=
  sd ← lift (OS.abspath ".");
  self_set (set_startup_directory (Some sd));;
  subobjects_update;;
  (* Set up the argument parsing *)
  setup_parser;;
  p ← self parser;
  '(o, a) ← lift (parse_args P p argv);
  self_set (set_opts (Some o));;
  self_set (set_args a);;
  apply_kwargs kwargs;;
  (* Set up the experiment *)
  before_experiment_run "output".

(** [Experiment.suspend_python], lines 306-309: the process stops until
    the operator continues it. *)
Definition suspend_python : ST state unit := skip.

(** [Experiment.execute_run], lines 273-288. *)
Definition execute_run : ST state unit :=
  bd ← self base_directory;
  (* Goto the output directory *)
  bd ← match bd with Some bd => mret bd | None => raise TypeError "chdir" end;
  lift (OS.chdir bd);;
  try_finally
    (try_except
       (emit EvRun;; user (run P))
       (λ e,
          if isinstance_RuntimeError e then
            (* Clean up the tmp directory *)
            k ← class_of;
            when (cls_suspend_on_error k)
              (lift (OS.print (exn_msg e));;
               tmp ← self tmp_directory;
               p ← lift (obj_path tmp);
               lift (OS.print ("tmp-dir: " +:+ p));;
               suspend_python);;
            tmp ← self tmp_directory;
            p ← lift (obj_path tmp);
            lift (OS.rmtree p);;
            reraise e
          else reraise e))
    (sd ← self startup_directory;
     match sd with
     | Some sd => lift (OS.chdir sd)
     | None => raise AttributeError "startup_directory"
     end).

(** [Experiment.symlink_name], lines 395-400. *)
Definition symlink_name : ST state string := self title.

(** [Experiment.after_experiment_run], lines 402-434. *)
Definition after_experiment_run (parameter_type : string) : ST state unit :=
  if bool_decide (parameter_type = "output") then
    outs ← self outputs;
    for_items outs (λ name outp, obj_after_experiment_run outp "output");;
    ins ← self inputs;
    for_items ins (λ name inp, obj_after_experiment_run inp "input");;
    now ← lift OS.now;
    md ← self metadata;
    md ← match md with
         | Some (JDict d) => mret (Dict.set d "date-end" now)
         | _ => raise TypeError "__metadata"
         end;
    self_set (set_metadata (Some (JDict md)));;
    bd ← self base_directory;
    bd ← match bd with Some bd => mret bd | None => raise TypeError "join" end;
    lift (OS.write_file (OSPath.join bd "metadata") (json_dumps P md));;
    tmp ← self tmp_directory;
    p ← lift (obj_path tmp);
    lift (OS.rmtree p);;
    (* Create a Symlink to the newsest result set, if it is not already
       removed (--dummy) *)
    o ← self opts;
    o ← match o with Some o => mret o | None => raise AttributeError "__opts" end;
    do_symlink ← getattr o "do_symlink";
    ex ← lift (OS.exists_ bd);
    when (Py.truthy do_symlink && ex)
      (name ← symlink_name;
       link ← lift (OS.abspath (OSPath.join (OSPath.join bd "..") name));
       il ← lift (OS.islink link);
       when il (lift (OS.unlink link));;
       ex' ← lift (OS.exists_ link);
       when (negb ex')
         (i ← self experiment_instance;
          i ← as_str i;
          lift (OS.symlink i link)))
  else
    outs ← self outputs;
    for_items outs (λ name outp, obj_after_experiment_run outp "input").

(** [Experiment.execute_teardown], lines 291-293. *)
Definition execute_teardown : ST state pyval :=
  after_experiment_run "output";;
  self experiment_instance.

(** [Experiment.execute], lines 226-249. *)
Definition execute (argv : list string) (kwargs : Dict.t pyval) : ST state pyval :=
  execute_setup argv kwargs;;
  execute_run;;
  execute_teardown.

End Engine.

(** ** A sample program *)

Module Sample.

(** Modelled from the spec: the set-up hook of an output of the absent
    module [versuchung.types]; it is "invoked once the result directory
    exists, before user work runs, to create/initialize whatever filesystem
    artifact it represents": the parameter is rooted at the result
    directory of the experiment and [outp_setup_output] is called.  Inputs
    have nothing to set up. *)
Definition before_experiment_run (e : instance) (l : loc) (parameter_type : string)
  : ST world unit :=
  if bool_decide (parameter_type = "output") then
    o ← OS.read l;
    match o with
    | OFilesystemObject k n on _ od =>
        let o' := OFilesystemObject k n on (PStr <$> base_directory e) od in
        OS.write l o';;
        Types.outp_setup_output o'
    | _ => skip
    end
  else skip.

(** The tear-down hook: the sample parameters buffer nothing. *)
Definition after_experiment_run (e : instance) (l : loc) (parameter_type : string)
  : ST world unit := skip.

(** A rendering of a record, standing for [json.dumps]. *)
Definition dumps (d : Dict.t pyval) : string :=
  "{" +:+ foldr (λ kv acc, kv.1 +:+ ": " +:+ Py.str kv.2 +:+ ", " +:+ acc) "}" d.

(** Standing for [json.loads]: text that does not start with a brace is
    not valid JSON; the members of a record are not decoded. *)
Definition loads (s : string) : option json :=
  match s with
  | String c _ => if bool_decide (c = ascii_of_nat 123) then Some (JDict []) else None
  | EmptyString => None
  end.

(** Standing for [eval] on a record in the legacy format. *)
Definition eval (s : string) : ST world json := mret (JDict []).

(** Standing for [OptionParser.parse_args] on an empty command line: every
    option has its default. *)
Definition parse_args (p : optparser) (argv : list string)
  : ST world (Dict.t pyval * list string) :=
  match argv with
  | [] => mret (foldl (λ o x, Dict.set o x.1.2 x.2) [] p, [])
  | _ => raise SystemExit "2"
  end.

(** The deferred input of the samples: a string computed from the
    title of the experiment. *)
Definition lambda (code : nat) (e : instance) : ST world obj :=
  mret (OString None (PStr (title e))).

(** User work that assigns to no attribute of the experiment. *)
Definition work (run : instance → ST world unit)
  : instance → world → outcome unit * (instance * world) :=
  λ e w, let '(r, w') := run e w in (r, (e, w')).

Definition program_of (run : instance → world → outcome unit * (instance * world))
  : program :=
  Program run id lambda before_experiment_run after_experiment_run
          (λ _, skip) dumps loads eval parse_args.

Definition program (run : instance → ST world unit) : program :=
  program_of (work run).

(** The class [Simple]: version 1, one scalar input [n] defaulting to
    ["1"], one output file. *)
Definition world0 : world :=
  World [OString None (PStr "1"); OFilesystemObject KFile None (PStr "out.txt") None None]
        {[ "Simple" := PyClass (PInt 1) false [("n", RObj 0)] [("out", RObj 1)] ]}
        {[ ["tmp"] := NDir; ["home"] := NDir; ["home"; "u"] := NDir ]}
        ["home"; "u"] ∅ 0 0 [].

(** [c(title=t)] in the world [w]. *)
Definition instance_of (c : string) (t : option string) (w : world) : state :=
  (init (program (λ _, skip)) None t None None (State (blank c) w [])).2.

(** [Simple()] in the world [w]. *)
Definition new (w : world) : state := instance_of "Simple" None w.

Definition constructed : state := new world0.

(** The state in which [execute_run] starts, after [execute_setup] with
    no overrides. *)
Definition set_up : state :=
  (execute_setup (program (λ _, skip)) [] [] constructed).2.

(** Two classes that declare the same two inputs in a different order. *)
Definition world_pair : world :=
  World [OString None (PStr "1"); OString None (PStr "2")]
        {[ "AB" := PyClass (PInt 1) false [("a", RObj 0); ("b", RObj 1)] [];
           "BA" := PyClass (PInt 1) false [("b", RObj 1); ("a", RObj 0)] [] ]}
        {[ ["tmp"] := NDir; ["home"] := NDir; ["home"; "u"] := NDir ]}
        ["home"; "u"] ∅ 0 0 [].

(** [c(title="T")] of [world_pair] after [execute_setup]. *)
Definition pair_set_up (c : string) : state :=
  (execute_setup (program (λ _, skip)) [] [] (instance_of c (Some "T") world_pair)).2.

(** A result directory [old] whose record is not JSON. *)
Definition world_corrupt (env : gmap string string) : world :=
  World [OString None (PStr "1"); OFilesystemObject KFile None (PStr "out.txt") None None]
        {[ "Simple" := PyClass (PInt 1) false [("n", RObj 0)] [("out", RObj 1)] ]}
        {[ ["tmp"] := NDir; ["home"] := NDir; ["home"; "u"] := NDir;
           ["home"; "u"; "old"] := NDir;
           ["home"; "u"; "old"; "metadata"] := NFile "('n', '1')" ]}
        ["home"; "u"] env 0 0 [].

(** User work that leaves a visible and a hidden file in the result
    directory the first time it runs there, and another visible file every
    other time. *)
Definition leave_files (e : instance) : ST world unit :=
  seen ← OS.exists_ ".seen";
  if (seen : bool) then OS.write_file "second.txt" "2"
  else OS.write_file ".seen" "1";; OS.write_file "first.txt" "1".

End Sample.

(** * The vocabulary of the theorems *)

(** A computation preserves a preorder [R] on states when every run, to a
    result or to an exception, ends in a state related to the first. *)
Definition preserves {S A} (R : relation S) (c : ST S A) : Prop :=
  ∀ s, R s (c s).2.

(** Two states agree on an observation [f]. *)
Definition same {S B} (f : S → B) : relation S := λ s s', f s' = f s.

Fixpoint concat_strings (l : list string) : string :=
  match l with
  | [] => ""
  | x :: l' => x +:+ concat_strings l'
  end.

(** The digest as the specification words it: the digest of
    ["version " + str(V)] followed by [k + " " + str(M[k])] for every key
    [k] of [M] in sorted order. *)
Definition spec_digest (V : pyval) (M : Dict.t pyval) : string :=
  MD5.hexdigest
    ("version " +:+ Py.str V +:+
     concat_strings
       ((λ k, k +:+ " " +:+ Py.str (default PNone (Dict.get M k))) <$> sorted_keys M)).

(** The identity as the specification words it: [<title>-<hex-digest>]. *)
Definition spec_identity (T : string) (V : pyval) (M : Dict.t pyval) : string :=
  T +:+ "-" +:+ spec_digest V M.

(** What lines 350-360 compute, case by case. *)
Definition identity_outcome (P : program) (s : state)
  : outcome (Dict.t pyval * string) * state :=
  match (collect_metadata (Dict.keys (inputs (this s))) (inputs (this s)) [] (world_of s)).1 with
  | Raise e => (Raise e, s)
  | Ret md =>
      match classes (world_of s) !! cls (this s) with
      | None => (Raise (Exn AttributeError (cls (this s))), s)
      | Some k =>
          let identity := spec_identity (title (this s)) (cls_version k) (filter_metadata P md) in
          (Ret (md, spec_digest (cls_version k) (filter_metadata P md)),
           State (set_experiment_instance (PStr identity) (this s)) (world_of s)
                 (log s ++ [EvIdentity identity]))
      end
  end.

(** The operating system calls of the engine leave the environment and
    the class attributes alone. *)
Definition same_env : relation world :=
  λ w w', environ w' = environ w ∧ classes w' = classes w.



(** The opt-in toggle of the legacy record format is not set. *)
Definition toggle_unset (w : world) : Prop :=
  Py.truthy (PStr (default "" (environ w !! "VERSUCHUNG_METADATA_EVAL"))) = false.

(** As long as the toggle is unset, it stays unset and nothing is logged. *)
Definition no_eval : relation state := λ s s',
  toggle_unset (world_of s) → toggle_unset (world_of s') ∧ log s' = log s.

(** The part of the state that decides whether a path exists. *)
Definition same_files : relation world := λ w w', fs w' = fs w ∧ cwd w' = cwd w.

(** Lines 134-135: a default instance that is missing is dropped. *)
Definition default_instance (default_experiment_instance : option string) : ST state pyval :=
  match default_experiment_instance with
  | Some p =>
      ex ← lift (OS.exists_ p);
      if bool_decide (p ≠ "") && negb ex then mret PNone else mret (PStr p)
  | None => mret PNone
  end.

(** Without a result directory, [__reinit__] leaves no base directory and
    no metadata. *)
Definition no_result_directory (e : instance) : Prop :=
  base_directory e = None ∧ metadata e = None.




(** The log grows by events of one phase. *)
Definition logs (φ : event → Prop) : relation state := λ s s',
  ∃ t, log s' = log s ++ t ∧ Forall φ t.







(** A reference that does not lead to one of the first [n] objects. *)
Definition fresh_ref (n : nat) (r : ref) : Prop :=
  match r with RObj l => (n ≤ l)%nat | _ => True end.

Definition fresh_refs (n : nat) (d : Dict.t ref) : Prop :=
  Forall (λ kv, fresh_ref n kv.2) d.


(** The class attributes and the first [n] objects are as they were, and
    no object has gone. *)
Definition frame (n : nat) : relation world := λ w w',
  classes w' = classes w
  ∧ (length (heap w) ≤ length (heap w'))%nat
  ∧ ∀ l, (l < n)%nat → heap w' !! l = heap w !! l.


(** The references an instance holds lead to objects that are not among
    the first [n]. *)
Definition owned (n : nat) (e : instance) : Prop :=
  fresh_refs n (inputs e) ∧ fresh_refs n (outputs e) ∧ fresh_refs n (subobjects e).

(** The first [n] objects and the class attributes are kept. *)
Definition keeps_world (n : nat) : relation world := λ w w',
  (n ≤ length (heap w))%nat → frame n w w'.

Definition keeps (n : nat) : relation state := λ s s',
  keeps_world n (world_of s) (world_of s').

(** They are kept by an instance that owns its parameters, and it still
    owns them afterwards. *)
Definition keeps_owned (n : nat) : relation state := λ s s',
  (n ≤ length (heap (world_of s)))%nat → owned n (this s) →
  frame n (world_of s) (world_of s') ∧ owned n (this s').












(** * Properties *)

(** ** The library models compute what the libraries compute *)

Example md5_empty : MD5.hexdigest "" = "d41d8cd98f00b204e9800998ecf8427e".
Proof. vm_compute. reflexivity. Qed.

Example md5_abc : MD5.hexdigest "abc" = "900150983cd24fb0d6963f7d28e17f72".
Proof. vm_compute. reflexivity. Qed.

Example md5_two_blocks :
  MD5.hexdigest
    "12345678901234567890123456789012345678901234567890123456789012345678901234567890"
  = "57edf4a22be3c955ac49da2e2107b67a".
Proof. vm_compute. reflexivity. Qed.

Example str_int_examples :
  Py.str (PInt 0) = "0" /\ Py.str (PInt 1) = "1" /\ Py.str (PInt 1205) = "1205"
  /\ Py.str (PInt (-40)) = "-40".
Proof. vm_compute. auto. Qed.

Example ospath_examples :
  OSPath.resolve ["home"; "u"] "./a/../b//c" = ["home"; "u"; "b"; "c"]
  ∧ OSPath.resolve ["home"; "u"] "/tmp/x/.." = ["tmp"]
  ∧ OSPath.abspath ["home"; "u"] "." = "/home/u"
  ∧ OSPath.abspath [] "." = "/"
  ∧ OSPath.join "/a" "b" = "/a/b" ∧ OSPath.join "/a/" "b" = "/a/b"
  ∧ OSPath.join "/a" "/b" = "/b" ∧ OSPath.join "" "b" = "b"
  ∧ OSPath.basename "/a/b" = "b" ∧ OSPath.basename "ab" = "ab"
  ∧ OSPath.basename "/a/b/" = "".
Proof. vm_compute. repeat split. Qed.

(** ** The order of [sorted] *)

Lemma sorted_keys_Permutation (d : Dict.t pyval) : sorted_keys d ≡ₚ Dict.keys d.
Proof. apply merge_sort_Permutation. Qed.

Lemma sorted_keys_perm_eq (d1 d2 : Dict.t pyval) :
  d1 ≡ₚ d2 → sorted_keys d1 = sorted_keys d2.
Proof.
  intros Hp. apply (Sorted_unique String.le).
  - apply Sorted_merge_sort, _.
  - apply Sorted_merge_sort, _.
  - rewrite !sorted_keys_Permutation. unfold Dict.keys. by rewrite Hp.
Qed.

(** ** Dictionaries *)

Lemma Dict_get_Some_elem {V} (d : Dict.t V) k v :
  Dict.get d k = Some v → (k, v) ∈ d.
Proof.
  induction d as [|[k' v'] d IH]; simpl; [done|].
  case_decide; intros; simplify_eq; [left|right; auto].
Qed.

Lemma Dict_get_is_Some {V} (d : Dict.t V) k :
  k ∈ Dict.keys d → is_Some (Dict.get d k).
Proof.
  unfold Dict.keys. induction d as [|[k' v'] d IH]; simpl.
  - by intros ?%elem_of_nil.
  - intros [->|Hin]%elem_of_cons; case_decide; eauto; done.
Qed.

Lemma Dict_get_elem {V} (d : Dict.t V) k v :
  Dict.wf d → (k, v) ∈ d → Dict.get d k = Some v.
Proof.
  unfold Dict.wf, Dict.keys.
  induction d as [|[k' v'] d IH]; simpl; intros Hnd Hin.
  - by apply elem_of_nil in Hin.
  - apply NoDup_cons in Hnd as [Hk Hnd].
    apply elem_of_cons in Hin as [Heq|Hin].
    + simplify_eq. by rewrite decide_True.
    + rewrite decide_False; [auto|].
      intros ->. apply Hk. apply list_elem_of_fmap. by exists (k, v).
Qed.

Lemma Dict_get_perm {V} (d1 d2 : Dict.t V) k :
  Dict.wf d1 → d1 ≡ₚ d2 → Dict.get d1 k = Dict.get d2 k.
Proof.
  intros Hwf Hp.
  assert (Dict.wf d2) as Hwf2 by (unfold Dict.wf, Dict.keys in *; by rewrite <- Hp).
  destruct (Dict.get d1 k) as [v|] eqn:H1.
  - symmetry. apply Dict_get_elem; [done|]. rewrite <- Hp. by apply Dict_get_Some_elem.
  - destruct (Dict.get d2 k) as [v|] eqn:H2; [|done].
    apply Dict_get_Some_elem in H2. rewrite <- Hp in H2.
    apply Dict_get_elem in H2; [congruence|done].
Qed.

(** ** Reasoning about computations *)

Lemma bind_unfold {S A B} (c : ST S A) (f : A → ST S B) (s : S) :
  (c ≫= f) s = match c s with
               | (Ret a, s') => f a s'
               | (Raise e, s') => (Raise e, s')
               end.
Proof. reflexivity. Qed.

Lemma bind_Ret {S A B} (c : ST S A) (f : A → ST S B) (s s' : S) (a : A) :
  c s = (Ret a, s') → (c ≫= f) s = f a s'.
Proof. intros H. by rewrite bind_unfold, H. Qed.

Lemma bind_Raise {S A B} (c : ST S A) (f : A → ST S B) (s s' : S) (e : exn) :
  c s = (Raise e, s') → (c ≫= f) s = (Raise e, s').
Proof. intros H. by rewrite bind_unfold, H. Qed.


Section preserves.
Context {S : Type} (R : relation S) `{!PreOrder R}.

Lemma preserves_ret {A} (a : A) : preserves R (mret a : ST S A).
Proof. intros s. simpl. reflexivity. Qed.

Lemma preserves_raise {A} c msg : preserves R (raise c msg : ST S A).
Proof. intros s. simpl. reflexivity. Qed.

Lemma preserves_reraise {A} e : preserves R (reraise e : ST S A).
Proof. intros s. simpl. reflexivity. Qed.

Lemma preserves_gets {A} (f : S → A) : preserves R (gets f).
Proof. intros s. simpl. reflexivity. Qed.

Lemma preserves_skip : preserves R (skip : ST S unit).
Proof. apply preserves_ret. Qed.

Lemma preserves_bind {A B} (c : ST S A) (f : A → ST S B) :
  preserves R c → (∀ a, preserves R (f a)) → preserves R (c ≫= f).
Proof.
  intros Hc Hf s. rewrite bind_unfold. specialize (Hc s).
  destruct (c s) as [[a|e] s']; simpl in *; [|done].
  etrans; [done|]. apply Hf.
Qed.

Lemma preserves_try_except {A} (c : ST S A) (h : exn → ST S A) :
  preserves R c → (∀ e, preserves R (h e)) → preserves R (try_except c h).
Proof.
  intros Hc Hh s. unfold try_except. specialize (Hc s).
  destruct (c s) as [[a|e] s']; simpl in *; [done|].
  etrans; [done|]. apply Hh.
Qed.

Lemma preserves_try_finally {A} (c : ST S A) (f : ST S unit) :
  preserves R c → preserves R f → preserves R (try_finally c f).
Proof.
  intros Hc Hf s. unfold try_finally. specialize (Hc s).
  destruct (c s) as [r s']; simpl in *. specialize (Hf s').
  destruct (f s') as [[[]|e] s'']; simpl in *; by etrans.
Qed.

Lemma preserves_for_each {A} (xs : list A) (body : A → ST S unit) :
  (∀ x, x ∈ xs → preserves R (body x)) → preserves R (for_each xs body).
Proof.
  induction xs as [|x xs IH]; intros Hb; simpl.
  - apply preserves_ret.
  - apply preserves_bind; [apply Hb; left|].
    intros _. apply IH. intros y Hy. apply Hb. by right.
Qed.

Lemma preserves_for_items {V} (d : Dict.t V) (body : string → V → ST S unit) :
  (∀ k v, (k, v) ∈ d → preserves R (body k v)) → preserves R (for_items d body).
Proof.
  intros Hb. apply preserves_for_each. intros [k v] Hin. by apply Hb.
Qed.

Lemma preserves_when (b : bool) (c : ST S unit) :
  preserves R c → preserves R (when b c).
Proof. destruct b; simpl; [done|]. intros _. apply preserves_ret. Qed.

Lemma preserves_assert (b : bool) msg : preserves R (assert b msg : ST S unit).
Proof. destruct b; simpl; [apply preserves_ret|apply preserves_raise]. Qed.

Lemma preserves_getitem {V} (d : Dict.t V) k : preserves R (getitem d k : ST S V).
Proof. unfold getitem. destruct (Dict.get d k); [apply preserves_ret|apply preserves_raise]. Qed.

Lemma preserves_getattr (d : Dict.t pyval) k : preserves R (getattr d k : ST S pyval).
Proof. unfold getattr. destruct (Dict.get d k); [apply preserves_ret|apply preserves_raise]. Qed.

Lemma preserves_as_str v : preserves R (as_str v : ST S string).
Proof. destruct v; simpl; first [apply preserves_ret|apply preserves_raise]. Qed.

Lemma preserves_modify (f : S → S) : (∀ s, R s (f s)) → preserves R (modify f).
Proof. intros H s. apply H. Qed.

End preserves.

(** One step of a proof that a computation preserves a relation. *)
Ltac preserves_step :=
  lazymatch goal with
  | |- PreOrder _ => apply _
  | |- preserves _ (mbind _ _) => apply preserves_bind; [..|intros]
  | |- preserves _ (mret _) => apply preserves_ret
  | |- preserves _ skip => apply preserves_skip
  | |- preserves _ (raise _ _) => apply preserves_raise
  | |- preserves _ (reraise _) => apply preserves_reraise
  | |- preserves _ (gets _) => apply preserves_gets
  | |- preserves _ (try_except _ _) => apply preserves_try_except; [..|intros]
  | |- preserves _ (try_finally _ _) => apply preserves_try_finally
  | |- preserves _ (for_items _ _) => apply preserves_for_items; [..|intros]
  | |- preserves _ (for_each _ _) => apply preserves_for_each; [..|intros]
  | |- preserves _ (when _ _) => apply preserves_when
  | |- preserves _ (assert _ _) => apply preserves_assert
  | |- preserves _ (getitem _ _) => apply preserves_getitem
  | |- preserves _ (getattr _ _) => apply preserves_getattr
  | |- preserves _ (as_str _) => apply preserves_as_str
  | |- preserves _ (match ?x with _ => _ end) => destruct x
  | |- preserves _ (let '(_, _) := ?x in _) => destruct x
  end.

Global Instance same_preorder {S B} (f : S → B) : PreOrder (same f).
Proof. split; unfold same; [by intros ?|intros ???; congruence]. Qed.

Section preserves_state.
Context (R : relation state) `{!PreOrder R}.

Lemma preserves_lift {A} (c : ST world A) :
  (∀ s w', R s (State (this s) w' (log s))) → preserves R (lift c).
Proof. intros H s. unfold lift. destruct (c (world_of s)) as [r w']. apply H. Qed.

Lemma preserves_lift_strong {A} (Q : relation world) (c : ST world A) :
  preserves Q c →
  (∀ s w', Q (world_of s) w' → R s (State (this s) w' (log s))) →
  preserves R (lift c).
Proof.
  intros Hc H s. unfold lift. specialize (Hc (world_of s)).
  destruct (c (world_of s)) as [r w']. by apply H.
Qed.

Lemma preserves_self {A} (f : instance → A) : preserves R (self f).
Proof. apply preserves_gets, _. Qed.

Lemma preserves_self_set (f : instance → instance) :
  (∀ s, R s (State (f (this s)) (world_of s) (log s))) → preserves R (self_set f).
Proof. intros H s. apply H. Qed.

Lemma preserves_emit ev :
  (∀ s, R s (State (this s) (world_of s) (log s ++ [ev]))) → preserves R (emit ev).
Proof. intros H s. apply H. Qed.

End preserves_state.

(** Computations that only read. *)
Lemma read_preserves_eq l : preserves (=) (OS.read l).
Proof. intros w. unfold OS.read. by destruct (heap w !! l). Qed.

Lemma name_of_preserves_eq o : preserves (=) (Types.name_of o).
Proof.
  destruct o as [[n|] ?|? [n|] ? ? ?|e|]; simpl; repeat preserves_step.
Qed.

Lemma obj_inp_metadata_preserves_eq r : preserves (=) (obj_inp_metadata r).
Proof.
  destruct r; simpl; try by (apply preserves_raise; apply _).
  apply preserves_bind; [apply _|apply read_preserves_eq|]. intros o.
  destruct o; unfold Types.inp_metadata, Experiment_inp_metadata;
    repeat first [apply name_of_preserves_eq | preserves_step].
Qed.

Lemma collect_metadata_preserves_eq names ins md :
  preserves (=) (collect_metadata names ins md).
Proof.
  revert md. induction names as [|n names IH]; intros md; simpl.
  - apply preserves_ret, _.
  - repeat first [apply obj_inp_metadata_preserves_eq | apply IH | preserves_step].
Qed.

Lemma hash_keys_preserves_eq m calc ks : preserves (=) (hash_keys m calc ks).
Proof.
  revert m. induction ks as [|k ks IH]; intros m; simpl.
  - apply preserves_ret, _.
  - repeat first [apply IH | preserves_step].
Qed.

(** ** The identity *)

Lemma string_app_cons (x : ascii) (a b : string) :
  String x a +:+ b = String x (a +:+ b).
Proof. reflexivity. Qed.

Lemma string_app_assoc (a b c : string) : (a +:+ b) +:+ c = a +:+ (b +:+ c).
Proof. induction a as [|x a IH]; [done|]. by rewrite !string_app_cons, IH. Qed.

Lemma string_app_nil_r (a : string) : a +:+ "" = a.
Proof. induction a as [|x a IH]; [done|]. by rewrite string_app_cons, IH. Qed.

Lemma hash_keys_value m calc ks w :
  (∀ k, k ∈ ks → k ∈ Dict.keys calc) →
  hash_keys m calc ks w =
    (Ret (m +:+ concat_strings
            ((λ k, k +:+ " " +:+ Py.str (default PNone (Dict.get calc k))) <$> ks)), w).
Proof.
  revert m. induction ks as [|k ks IH]; intros m Hks; simpl.
  - by rewrite string_app_nil_r.
  - destruct (Dict_get_is_Some calc k) as [v Hv]; [apply Hks; left|].
    unfold getitem. rewrite Hv. simpl.
    rewrite bind_unfold. simpl. rewrite IH.
    + unfold MD5.update. by rewrite !string_app_assoc.
    + intros k' Hk'. apply Hks. by right.
Qed.

Lemma compute_identity_outcome (P : program) (s : state) :
  compute_identity P s = identity_outcome P s.
Proof.
  unfold identity_outcome.
  pose proof (collect_metadata_preserves_eq (Dict.keys (inputs (this s)))
                (inputs (this s)) [] (world_of s)) as Hw.
  destruct (collect_metadata _ _ _ _) as [r w'] eqn:Hc. simpl in *. subst w'.
  destruct s as [t w lg]. simpl in *.
  unfold compute_identity.
  rewrite bind_unfold. simpl.
  rewrite bind_unfold. unfold lift at 1. simpl. rewrite Hc.
  destruct r as [md|e]; [|done].
  rewrite bind_unfold. unfold class_of. rewrite bind_unfold. simpl.
  rewrite bind_unfold. unfold lift at 1. simpl.
  destruct (classes w !! cls t) as [k|] eqn:Hk; [|done]. simpl.
  rewrite bind_unfold. unfold lift at 1. simpl.
  rewrite hash_keys_value; [|intros k'; by rewrite (sorted_keys_Permutation _)].
  simpl. unfold spec_identity, spec_digest, MD5.update, MD5.new. simpl.
  by rewrite !string_app_assoc.
Qed.

(** One step of a proof that a method preserves a relation on states. *)
Ltac preserves_state_step :=
  lazymatch goal with
  | |- preserves _ (lift _) => apply preserves_lift; [..|intros; try done]
  | |- preserves _ (self _) => apply preserves_self
  | |- preserves _ (self_set _) => apply preserves_self_set; [..|intros; try done]
  | |- preserves _ (emit _) => apply preserves_emit; [..|intros; try done]
  | _ => preserves_step
  end.

Lemma class_of_preserves (R : relation state) `{!PreOrder R} :
  (∀ s w', R s (State (this s) w' (log s))) → preserves R class_of.
Proof.
  intros H. unfold class_of. repeat preserves_state_step; apply H.
Qed.

Lemma store_record_same_identity (P : program) md digest :
  preserves (same (λ s, experiment_instance (this s))) (store_record P md digest).
Proof.
  unfold store_record.
  repeat first [apply class_of_preserves; [apply _|done] | preserves_state_step].
Qed.

Lemma calculate_metadata_identity (P : program) (s : state) :
  experiment_instance (this (calculate_metadata P s).2) =
  experiment_instance (this (identity_outcome P s).2).
Proof.
  unfold calculate_metadata. rewrite bind_unfold, compute_identity_outcome.
  destruct (identity_outcome P s) as [[[md digest]|e] s1]; [|done].
  apply (store_record_same_identity P md digest s1).
Qed.

(** The metadata of an input is read from the object; it does not depend
    on the rest of the world. *)
Lemma obj_inp_metadata_heap r w w' :
  (∀ l, r = RObj l → heap w' !! l = heap w !! l) →
  (obj_inp_metadata r w').1 = (obj_inp_metadata r w).1.
Proof.
  intros H. destruct r as [| |l]; [done..|].
  unfold obj_inp_metadata, deref. rewrite !bind_unfold.
  unfold OS.read. rewrite (H l eq_refl).
  destruct (heap w !! l) as [o|]; [|done].
  destruct o as [[n|] ?|? [n|] ? ? ?|e|]; try done.
  simpl. unfold Experiment_inp_metadata. rewrite !bind_unfold. simpl.
  by destruct (name e).
Qed.

Lemma collect_metadata_heap names ins md w w' :
  (∀ name l, (name, RObj l) ∈ ins → heap w' !! l = heap w !! l) →
  (collect_metadata names ins md w').1 = (collect_metadata names ins md w).1.
Proof.
  intros H. revert md. induction names as [|n names IH]; intros md; [done|].
  simpl. rewrite !bind_unfold. unfold getitem.
  destruct (Dict.get ins n) as [r|] eqn:Hr; [|done]. simpl.
  rewrite !bind_unfold.
  pose proof (obj_inp_metadata_heap r w w') as Hm.
  pose proof (obj_inp_metadata_preserves_eq r w) as Hw.
  pose proof (obj_inp_metadata_preserves_eq r w') as Hw'.
  destruct (obj_inp_metadata r w) as [r1 w1], (obj_inp_metadata r w') as [r2 w2].
  simpl in *. subst w1 w2.
  rewrite Hm.
  - destruct r1; [apply IH|done].
  - intros l ->. apply (H n). by apply Dict_get_Some_elem.
Qed.

Lemma spec_digest_perm V (m1 m2 : Dict.t pyval) :
  Dict.wf m1 → m1 ≡ₚ m2 → spec_digest V m1 = spec_digest V m2.
Proof.
  intros Hwf Hp. unfold spec_digest.
  rewrite (sorted_keys_perm_eq m1 m2 Hp).
  do 4 f_equal. apply list_fmap_ext. intros _ k _.
  by rewrite (Dict_get_perm m1 m2 k Hwf Hp).
Qed.

(** C1.  For every experiment with title T, version V and finalized input
    configuration map M, the identity that [__calculate_metadata] computes
    is T, a dash, and the hex digest of ["version " + str(V)] followed by
    [k + " " + str(M[k])] for the keys [k] of M in sorted order. *)
Theorem identity_is_title_and_digest (P : program) (s : state)
    (k : pyclass) (md : Dict.t pyval) :
  classes (world_of s) !! cls (this s) = Some k →
  (collect_metadata (Dict.keys (inputs (this s))) (inputs (this s)) [] (world_of s)).1
    = Ret md →
  experiment_instance (this (calculate_metadata P s).2) =
    PStr (title (this s) +:+ "-" +:+
          MD5.hexdigest
            ("version " +:+ Py.str (cls_version k) +:+
             concat_strings
               ((λ key, key +:+ " " +:+
                    Py.str (default PNone (Dict.get (filter_metadata P md) key)))
                  <$> sorted_keys (filter_metadata P md)))).
Proof.
  intros Hk Hmd. rewrite calculate_metadata_identity.
  unfold identity_outcome. by rewrite Hmd, Hk.
Qed.

(** C2.  Two configuration maps with the same key/value pairs, in whatever
    order the keys were inserted, give the same identity under one title
    and version. *)
Theorem identity_order_independent (P : program) (s1 s2 : state)
    (k1 k2 : pyclass) (md1 md2 : Dict.t pyval) :
  classes (world_of s1) !! cls (this s1) = Some k1 →
  classes (world_of s2) !! cls (this s2) = Some k2 →
  cls_version k1 = cls_version k2 →
  title (this s1) = title (this s2) →
  (collect_metadata (Dict.keys (inputs (this s1))) (inputs (this s1)) [] (world_of s1)).1
    = Ret md1 →
  (collect_metadata (Dict.keys (inputs (this s2))) (inputs (this s2)) [] (world_of s2)).1
    = Ret md2 →
  Dict.wf (filter_metadata P md1) →
  filter_metadata P md1 ≡ₚ filter_metadata P md2 →
  experiment_instance (this (calculate_metadata P s1).2) =
  experiment_instance (this (calculate_metadata P s2).2).
Proof.
  intros Hk1 Hk2 Hv Ht Hmd1 Hmd2 Hwf Hp.
  rewrite !calculate_metadata_identity. unfold identity_outcome.
  rewrite Hmd1, Hmd2, Hk1, Hk2. simpl. unfold spec_identity.
  by rewrite Ht, Hv, (spec_digest_perm _ _ _ Hwf Hp).
Qed.

(** C3.  The identity is computed from the inputs only: replacing the
    outputs of the experiment, and changing any object that is not one of
    its inputs, leaves the computed identity as it is. *)
Theorem identity_ignores_outputs (P : program) (s : state)
    (outs' : Dict.t ref) (h' : list obj) :
  (∀ name l, (name, RObj l) ∈ inputs (this s) → h' !! l = heap (world_of s) !! l) →
  experiment_instance
    (this (calculate_metadata P
             (State (set_outputs outs' (this s)) (set_heap h' (world_of s)) (log s))).2) =
  experiment_instance (this (calculate_metadata P s).2).
Proof.
  intros Hh. rewrite !calculate_metadata_identity. unfold identity_outcome. simpl.
  rewrite (collect_metadata_heap _ _ _ (world_of s) (set_heap h' (world_of s)) Hh).
  destruct (collect_metadata _ _ _ (world_of s)).1; [|done].
  by destruct (classes (world_of s) !! cls (this s)).
Qed.

(** ** Re-hydration *)

Global Instance same_env_preorder : PreOrder same_env.
Proof.
  split; [by intros ?|]. intros w1 w2 w3 [? ?] [? ?]. split; congruence.
Qed.

Ltac os_op :=
  intros w; (try split);
  repeat first
    [ progress simpl
    | match goal with
      | |- context [match ?x with _ => _ end] => destruct x
      | |- context [if ?x then _ else _] => destruct x
      end ];
  try done.

Lemma exists_same_env p : preserves same_env (OS.exists_ p).
Proof. by intros w. Qed.
Lemma isdir_same_env p : preserves same_env (OS.isdir p).
Proof. by intros w. Qed.
Lemma islink_same_env p : preserves same_env (OS.islink p).
Proof. by intros w. Qed.
Lemma realpath_same_env p : preserves same_env (OS.realpath p).
Proof. by intros w. Qed.
Lemma abspath_same_env p : preserves same_env (OS.abspath p).
Proof. by intros w. Qed.
Lemma getenv_same_env n : preserves same_env (OS.getenv n).
Proof. by intros w. Qed.
Lemma glob_star_same_env p : preserves same_env (OS.glob_star p).
Proof. by intros w. Qed.
Lemma print_same_env m : preserves same_env (OS.print m).
Proof. by intros w. Qed.
Lemma now_same_env : preserves same_env OS.now.
Proof. by intros w. Qed.
Lemma alloc_same_env o : preserves same_env (OS.alloc o).
Proof. by intros w. Qed.
Lemma write_same_env l o : preserves same_env (OS.write l o).
Proof. by intros w. Qed.
Lemma read_same_env l : preserves same_env (OS.read l).
Proof. unfold OS.read. os_op. Qed.
Lemma read_file_same_env p : preserves same_env (OS.read_file p).
Proof. unfold OS.read_file. os_op. Qed.
Lemma write_file_same_env p c : preserves same_env (OS.write_file p c).
Proof. unfold OS.write_file. os_op. Qed.
Lemma mkdir_same_env p : preserves same_env (OS.mkdir p).
Proof. unfold OS.mkdir. os_op. Qed.
Lemma rmtree_same_env p : preserves same_env (OS.rmtree p).
Proof. unfold OS.rmtree. os_op. Qed.
Lemma unlink_same_env p : preserves same_env (OS.unlink p).
Proof. unfold OS.unlink. os_op. Qed.
Lemma symlink_same_env t p : preserves same_env (OS.symlink t p).
Proof. unfold OS.symlink. os_op. Qed.
Lemma chdir_same_env p : preserves same_env (OS.chdir p).
Proof. unfold OS.chdir. os_op. Qed.
Lemma mkdtemp_same_env : preserves same_env OS.mkdtemp.
Proof.
  intros w. unfold OS.mkdtemp.
  destruct (OS.fresh_temp_name _ _ _) as [[seed p]|]; [|done].
  pose proof (mkdir_same_env (OSPath.render p) (set_entropy (S seed) w)) as H.
  destruct (OS.mkdir _ _) as [[[]|e] w']; exact H.
Qed.

Create HintDb same_env discriminated.
#[export] Hint Resolve exists_same_env isdir_same_env islink_same_env realpath_same_env
  abspath_same_env getenv_same_env glob_star_same_env print_same_env now_same_env
  alloc_same_env write_same_env read_same_env read_file_same_env write_file_same_env
  mkdir_same_env rmtree_same_env unlink_same_env symlink_same_env chdir_same_env
  mkdtemp_same_env : same_env.

Lemma deepcopy_dict_preserves (R : relation world) `{!PreOrder R} copy d m :
  (∀ r m', preserves R (copy r m')) → preserves R (deepcopy_dict copy d m).
Proof.
  intros Hc. revert m. induction d as [|[k r] d IH]; intros m; simpl.
  - apply preserves_ret, _.
  - repeat first [apply Hc | apply IH | preserves_step].
Qed.

Lemma deepcopy_same_env fuel r m : preserves same_env (deepcopy fuel r m).
Proof.
  revert r m. induction fuel as [|fuel IH]; intros r m.
  - destruct r; simpl; repeat preserves_step.
  - destruct r; simpl; [repeat preserves_step..|].
    destruct (memo_get m l); [repeat preserves_step|].
    repeat first [apply IH | apply deepcopy_dict_preserves; [apply _|apply IH]
                 | solve [auto with same_env] | preserves_step].
Qed.

(** ** Paths *)


Lemma split_nonempty (s : string) : OSPath.split s ≠ [].
Proof.
  induction s as [|c s IH]; simpl; [done|].
  case_decide; [done|]. by destruct (OSPath.split s).
Qed.








(** The simple calls of the operating system, as equations. *)
Lemma realpath_unfold p w : OS.realpath p w = (Ret (OSPath.abspath (cwd w) p), w).
Proof. reflexivity. Qed.
Lemma abspath_unfold p w : OS.abspath p w = (Ret (OSPath.abspath (cwd w) p), w).
Proof. reflexivity. Qed.
Lemma getenv_unfold n w : OS.getenv n w = (Ret (environ w !! n), w).
Proof. reflexivity. Qed.
Lemma print_unfold m w : OS.print m w = (Ret tt, set_stdout (stdout w ++ [m]) w).
Proof. reflexivity. Qed.
Lemma now_unfold w :
  OS.now w = (Ret (PStr (Py.str_nat (clock w))), set_clock (S (clock w)) w).
Proof. reflexivity. Qed.
Lemma exists_unfold p w :
  OS.exists_ p w =
    (Ret (bool_decide (p ≠ "") &&
          bool_decide (is_Some (OS.node_at (fs w)
                                  (OS.follow (fs w) (OSPath.resolve (cwd w) p))))), w).
Proof. reflexivity. Qed.
Lemma isdir_unfold p w :
  OS.isdir p w =
    (Ret (bool_decide (p ≠ "") &&
          bool_decide (OS.node_at (fs w) (OS.follow (fs w) (OSPath.resolve (cwd w) p))
                       = Some NDir)), w).
Proof. reflexivity. Qed.

Lemma read_unfold l w :
  OS.read l w = match heap w !! l with
                | Some o => (Ret o, w)
                | None => (Raise (Exn AttributeError "dangling reference"), w)
                end.
Proof. reflexivity. Qed.
Lemma chdir_unfold p w :
  OS.chdir p w =
    let q := OS.follow (fs w) (OSPath.resolve (cwd w) p) in
    if bool_decide (p = "") then (Raise (Exn FileNotFoundError p), w)
    else match OS.node_at (fs w) q with
         | Some NDir => (Ret tt, set_cwd q w)
         | Some _ => (Raise (Exn NotADirectoryError p), w)
         | None => (Raise (Exn FileNotFoundError p), w)
         end.
Proof. reflexivity. Qed.
Lemma rmtree_unfold p w :
  OS.rmtree p w =
    let q := OSPath.resolve (cwd w) p in
    if bool_decide (p = "") then (Raise (Exn FileNotFoundError p), w)
    else match OS.node_at (fs w) q with
         | Some NDir => (Ret tt, set_fs (filter (λ kv, ¬ q `prefix_of` kv.1) (fs w)) w)
         | Some (NSymlink _) =>
             (Raise (Exn OSError "Cannot call rmtree on a symbolic link"), w)
         | Some (NFile _) => (Raise (Exn NotADirectoryError p), w)
         | None => (Raise (Exn FileNotFoundError p), w)
         end.
Proof. reflexivity. Qed.
Lemma write_file_unfold p c w :
  OS.write_file p c w =
    let q := OS.follow (fs w) (OSPath.resolve (cwd w) p) in
    if bool_decide (p = "") then (Raise (Exn FileNotFoundError p), w)
    else match OS.node_at (fs w) q with
         | Some NDir => (Raise (Exn IsADirectoryError p), w)
         | _ =>
             match OS.node_at (fs w) (OS.parent q) with
             | Some NDir => (Ret tt, set_fs (<[q := NFile c]> (fs w)) w)
             | Some _ => (Raise (Exn NotADirectoryError p), w)
             | None => (Raise (Exn FileNotFoundError p), w)
             end
         end.
Proof. reflexivity. Qed.
Lemma read_file_unfold p w :
  OS.read_file p w =
    let q := OS.follow (fs w) (OSPath.resolve (cwd w) p) in
    if bool_decide (p = "") then (Raise (Exn FileNotFoundError p), w)
    else match OS.node_at (fs w) q with
         | Some (NFile content) => (Ret content, w)
         | Some NDir => (Raise (Exn IsADirectoryError p), w)
         | _ => (Raise (Exn FileNotFoundError p), w)
         end.
Proof. reflexivity. Qed.
Lemma mkdir_unfold p w :
  OS.mkdir p w =
    let q := OSPath.resolve (cwd w) p in
    if bool_decide (p = "") then (Raise (Exn FileNotFoundError p), w)
    else match OS.node_at (fs w) q with
         | Some _ => (Raise (Exn FileExistsError p), w)
         | None =>
             match OS.node_at (fs w) (OS.parent q) with
             | Some NDir => (Ret tt, set_fs (<[q := NDir]> (fs w)) w)
             | Some _ => (Raise (Exn NotADirectoryError p), w)
             | None => (Raise (Exn FileNotFoundError p), w)
             end
         end.
Proof. reflexivity. Qed.
Lemma unlink_unfold p w :
  OS.unlink p w =
    let q := OSPath.resolve (cwd w) p in
    match fs w !! q with
    | Some NDir => (Raise (Exn IsADirectoryError p), w)
    | Some _ => (Ret tt, set_fs (delete q (fs w)) w)
    | None => (Raise (Exn FileNotFoundError p), w)
    end.
Proof. reflexivity. Qed.
Lemma glob_star_unfold dir w :
  OS.glob_star dir w =
    (Ret (let p := OSPath.resolve (cwd w) dir in
          match OS.node_at (fs w) (OS.follow (fs w) p) with
          | Some NDir =>
              (λ entry, OSPath.join dir entry) <$>
                filter (λ entry, OS.hidden entry = false)
                       (OS.entries (fs w) (OS.follow (fs w) p))
          | _ => []
          end), w).
Proof. reflexivity. Qed.

(** From here on simplification does not look into the calls of the
    operating system. *)
Global Opaque OS.exists_ OS.isdir OS.islink OS.realpath OS.abspath OS.mkdir
  OS.rmtree OS.unlink OS.symlink OS.write_file OS.read_file OS.chdir
  OS.glob_star OS.getenv OS.mkdtemp OS.now OS.print OS.alloc OS.read OS.write
  OSPath.abspath OSPath.join OSPath.resolve OSPath.basename
  OSPath.contains_slash MD5.hexdigest.

Global Instance no_eval_preorder : PreOrder no_eval.
Proof.
  split; [by intros s ?|].
  intros s1 s2 s3 H12 H23 H1. destruct (H12 H1) as [H2 E2].
  destruct (H23 H2) as [H3 E3]. split; [done|congruence].
Qed.

Lemma no_eval_lift {A} (c : ST world A) :
  preserves same_env c → preserves no_eval (lift c).
Proof.
  intros Hc. apply (preserves_lift_strong _ same_env); [done|].
  intros s w' [He _] Hs. split; [|done]. unfold toggle_unset in *. simpl. by rewrite He.
Qed.

Lemma no_eval_self_set f : preserves no_eval (self_set f).
Proof. by intros s Hs. Qed.

Lemma no_eval_call_method {A} l (m : ST state A) :
  preserves no_eval m → preserves no_eval (call_method l m).
Proof.
  intros Hm s. unfold call_method.
  destruct (heap (world_of s) !! l) as [[| |e|]|]; try by intros ?.
  specialize (Hm (State e (world_of s) (log s))).
  destruct (m _) as [r s']. simpl in *. intros Hs. by destruct (Hm Hs).
Qed.

Ltac no_eval_step :=
  lazymatch goal with
  | |- preserves no_eval (lift _) => apply no_eval_lift
  | |- preserves no_eval (self_set _) => apply no_eval_self_set
  | |- preserves no_eval (self _) => apply preserves_self, _
  | |- preserves no_eval (exit_with _) => unfold exit_with
  | |- preserves no_eval class_of => unfold class_of
  | |- preserves same_env (gets _) => by intros ?
  | |- preserves same_env (deepcopy_dict _ _ _) =>
      apply deepcopy_dict_preserves; [apply _|intros; apply deepcopy_same_env]
  | |- preserves same_env _ => solve [auto with same_env]
  | _ => preserves_step
  end.

Lemma lift_unfold {A} (c : ST world A) (s : state) :
  lift c s = let '(r, w') := c (world_of s) in (r, State (this s) w' (log s)).
Proof. reflexivity. Qed.

(** Lines 153-157 when the toggle is unset. *)
Lemma legacy_fallback_refused (P : program) (path : string) (s : state) :
  toggle_unset (world_of s) →
  (toggle ← lift (OS.getenv "VERSUCHUNG_METADATA_EVAL");
   if Py.truthy (PStr (default "" toggle)) then
     emit EvEval;;
     content ← lift (OS.read_file (OSPath.join path "metadata"));
     lift (py_eval P content)
   else raise RuntimeError invalid_json_message) s
  = (Raise (Exn RuntimeError invalid_json_message), s).
Proof.
  intros Hs. unfold toggle_unset in Hs. destruct s as [t w lg].
  rewrite bind_unfold, lift_unfold, getenv_unfold. simpl in *. by rewrite Hs.
Qed.

Lemma load_metadata_no_eval (P : program) (path : string) :
  preserves no_eval (load_metadata P path).
Proof.
  unfold load_metadata. apply preserves_try_except; [apply _|repeat no_eval_step|].
  intros e. destruct (isinstance_JSONDecodeError e); [|apply preserves_reraise, _].
  intros s Hs. by rewrite (legacy_fallback_refused P path s Hs).
Qed.

Lemma load_record_no_eval (P : program) path : preserves no_eval (load_record P path).
Proof.
  unfold load_record.
  repeat first [apply load_metadata_no_eval | no_eval_step].
Qed.

Lemma copy_declarations_no_eval fuel : preserves no_eval (copy_declarations fuel).
Proof. unfold copy_declarations. repeat no_eval_step. Qed.

Lemma reinit_no_eval (P : program) fuel path : preserves no_eval (reinit P fuel path).
Proof.
  revert path. induction fuel as [|fuel IH]; intros path; simpl.
  { apply preserves_raise, _. }
  repeat first
    [ apply no_eval_call_method, IH
    | apply load_record_no_eval
    | apply copy_declarations_no_eval
    | no_eval_step ].
Qed.

Lemma load_metadata_corrupt (P : program) (path : string) (s : state) (content : string) :
  OS.read_file (OSPath.join path "metadata") (world_of s) = (Ret content, world_of s) →
  json_loads P content = None →
  toggle_unset (world_of s) →
  load_metadata P path s = (Raise (Exn RuntimeError invalid_json_message), s).
Proof.
  intros Hread Hjson Htog. destruct s as [t w lg]. cbn [world_of] in *.
  unfold load_metadata, try_except. rewrite bind_unfold, lift_unfold.
  cbn [world_of this log]. rewrite Hread. cbv beta iota zeta. rewrite Hjson.
  unfold raise at 1. cbv beta iota zeta.
  change (isinstance_JSONDecodeError _) with true. cbv beta iota zeta.
  by rewrite (legacy_fallback_refused P path (State t w lg) Htog).
Qed.

Lemma load_metadata_legacy (P : program) (path : string) (s : state) (content : string) :
  OS.read_file (OSPath.join path "metadata") (world_of s) = (Ret content, world_of s) →
  json_loads P content = None →
  ¬ toggle_unset (world_of s) →
  log (load_metadata P path s).2 = log s ++ [EvEval].
Proof.
  intros Hread Hjson Htog. unfold toggle_unset in Htog.
  apply not_false_is_true in Htog. destruct s as [t w lg]. cbn [world_of log] in *.
  unfold load_metadata, try_except. rewrite bind_unfold, lift_unfold.
  cbn [world_of this log]. rewrite Hread. cbv beta iota zeta. rewrite Hjson.
  unfold raise at 1. cbv beta iota zeta.
  change (isinstance_JSONDecodeError _) with true. cbv beta iota zeta.
  rewrite bind_unfold, lift_unfold, getenv_unfold. cbn [world_of this log].
  cbv beta iota zeta. rewrite Htog.
  rewrite bind_unfold. unfold emit at 1, modify at 1. cbv beta iota zeta.
  rewrite bind_unfold, lift_unfold. cbn [world_of this log]. rewrite Hread.
  cbv beta iota zeta. rewrite lift_unfold. cbn [world_of this log].
  by destruct (py_eval P content w).
Qed.

(** C4.  Re-hydration from a result directory whose record is not valid
    JSON: by default (the toggle [VERSUCHUNG_METADATA_EVAL] unset or empty)
    it raises [RuntimeError] with the invalid-JSON message, stores no
    metadata, and never attempts the legacy [eval], in this or in any other
    re-hydration; with the toggle set, the legacy [eval] is attempted. *)
Theorem corrupt_record_raises (P : program) (fuel : nat) (path : string)
    (s : state) (content : string) :
  path ≠ "" →
  OS.exists_ (OSPath.abspath (cwd (world_of s)) (OSPath.join "." path)) (world_of s)
    = (Ret true, world_of s) →
  OS.read_file (OSPath.join path "metadata") (world_of s) = (Ret content, world_of s) →
  json_loads P content = None →
  (toggle_unset (world_of s) →
     (reinit P (S fuel) (PStr path) s).1 = Raise (Exn RuntimeError invalid_json_message)
     ∧ metadata (this (reinit P (S fuel) (PStr path) s).2) = metadata (this s)
     ∧ (∀ fuel' path', log (reinit P fuel' path' s).2 = log s))
  ∧ (¬ toggle_unset (world_of s) →
     log (load_metadata P path s).2 = log s ++ [EvEval]).
Proof.
  intros Hne Hex Hread Hjson. split; [|by apply (load_metadata_legacy P path s content)].
  intros Htog.
  assert (∀ fuel' path', log (reinit P fuel' path' s).2 = log s) as Hlog.
  { intros fuel' path'. by destruct (reinit_no_eval P fuel' path' s Htog). }
  assert (negb (path =? "")%string = true) as Hpath.
  { apply negb_true_iff, String.eqb_neq. done. }
  destruct s as [t w lg]. cbn [world_of log this] in *.
  assert (∃ t', reinit P (S fuel) (PStr path) (State t w lg) =
                (Raise (Exn RuntimeError invalid_json_message), State t' w lg)
                ∧ metadata t' = metadata t) as (t' & Hr & Hmd).
  { simpl. rewrite bind_unfold. simpl.
    rewrite bind_unfold. unfold load_record. simpl. rewrite Hpath.
    rewrite bind_unfold. simpl.
    rewrite bind_unfold. simpl.
    destruct (OSPath.contains_slash path); simpl;
      rewrite bind_unfold, lift_unfold, realpath_unfold; simpl;
      rewrite bind_unfold; simpl;
      rewrite bind_unfold, lift_unfold; simpl; rewrite Hex; simpl;
      rewrite bind_unfold; simpl;
      rewrite bind_unfold;
      (erewrite load_metadata_corrupt; [|exact Hread|done|done]);
      eexists; (split; [reflexivity|done]). }
  rewrite Hr. cbn [fst snd this]. by split_and!.
Qed.

(** ** Construction with a default result directory *)

(** Symbolic execution: binds and the simple calls are run, and the
    result is simplified. *)
Lemma bind_cong {S A B} (c : ST S A) (f g : A → ST S B) (s : S) :
  (∀ a s', c s = (Ret a, s') → f a s' = g a s') → (c ≫= f) s = (c ≫= g) s.
Proof.
  intros H. rewrite !bind_unfold. destruct (c s) as [[a|e] s']; [by apply H|done].
Qed.

Lemma recursion_limit_S : ∃ n, recursion_limit = S n.
Proof. by eexists. Qed.

Global Instance same_files_preorder : PreOrder same_files.
Proof.
  split; [by intros ?|]. intros w1 w2 w3 [? ?] [? ?]. split; congruence.
Qed.

Lemma exists_same_files p w w' :
  same_files w w' → (OS.exists_ p w').1 = (OS.exists_ p w).1.
Proof. intros [Hf Hc]. rewrite !exists_unfold. simpl. by rewrite Hf, Hc. Qed.

Lemma default_instance_missing (p : string) (s : state) :
  p ≠ "" → (OS.exists_ p (world_of s)).1 = Ret false →
  default_instance (Some p) s = default_instance None s.
Proof.
  intros Hp Hex. unfold default_instance. rewrite bind_unfold, lift_unfold.
  rewrite exists_unfold in *. simpl in *. injection Hex as ->.
  rewrite bool_decide_true by done. by destruct s.
Qed.

Lemma init_unfold (P : program) dei t i o (s : state) :
  init P dei t i o s =
    (c ← self cls;
     self_set (set_title (match t with
                          | Some t => if bool_decide (t = "") then c else t
                          | None => c
                          end));;
     match i with
     | Some d =>
         lift (modify (λ w, set_classes
           (alter (λ k, PyClass (cls_version k) (cls_suspend_on_error k) d (cls_outputs k))
                  c (classes w)) w))
     | None => skip
     end;;
     match o with
     | Some d =>
         lift (modify (λ w, set_classes
           (alter (λ k, PyClass (cls_version k) (cls_suspend_on_error k) (cls_inputs k) d)
                  c (classes w)) w))
     | None => skip
     end;;
     dei' ← default_instance dei;
     reinit P recursion_limit dei') s.
Proof. reflexivity. Qed.

Lemma init_missing_default (P : program) (p : string) t i o (s : state) :
  p ≠ "" → (OS.exists_ p (world_of s)).1 = Ret false →
  init P (Some p) t i o s = init P None t i o s.
Proof.
  intros Hp Hex. rewrite !init_unfold.
  apply bind_cong. intros c s1 E1. injection E1 as <- <-.
  apply bind_cong. intros [] s2 E2. injection E2 as <-.
  apply bind_cong. intros [] s3 E3.
  apply bind_cong. intros [] s4 E4.
  assert (same_files (world_of s) (world_of s4)) as Hw.
  { destruct i, o; cbv [lift modify skip mret ST_ret] in E3, E4;
      simpl in *; simplify_eq; unfold same_files; simpl; done. }
  rewrite !bind_unfold, default_instance_missing; [done..|].
  by rewrite (exists_same_files p _ _ Hw).
Qed.

Lemma copy_declarations_same_record fuel :
  preserves (same (λ s, (base_directory (this s), metadata (this s))))
    (copy_declarations fuel).
Proof.
  unfold copy_declarations, class_of, exit_with. repeat preserves_state_step.
Qed.

Lemma reinit_without_path (P : program) (fuel : nat) (s : state) :
  no_result_directory (this (reinit P (S fuel) PNone s).2).
Proof.
  simpl. rewrite bind_unfold. simpl. rewrite bind_unfold. simpl.
  rewrite bind_unfold.
  pose proof (copy_declarations_same_record fuel
    (State (set_metadata None (set_base_directory None
              (set_experiment_instance PNone (this s)))) (world_of s) (log s))) as H.
  destruct (copy_declarations fuel _) as [[[]|e] s']; simpl in *;
    unfold same in H; simpl in H; by simplify_eq.
Qed.

Lemma init_without_default (P : program) t i o (s : state) :
  no_result_directory (this (init P None t i o s).2).
Proof.
  rewrite init_unfold. destruct recursion_limit_S as [n ->].
  destruct i, o;
    repeat (rewrite bind_unfold;
            cbv [lift modify skip mret ST_ret self self_set gets default_instance];
            cbv beta iota zeta);
    apply reinit_without_path.
Qed.

Lemma ret_unfold {S A} (a : A) (s : S) : (mret a : ST S A) s = (Ret a, s).
Proof. reflexivity. Qed.
Lemma raise_unfold {S A} c msg (s : S) : (raise c msg : ST S A) s = (Raise (Exn c msg), s).
Proof. reflexivity. Qed.
Lemma reraise_unfold {S A} e (s : S) : (reraise e : ST S A) s = (Raise e, s).
Proof. reflexivity. Qed.
Lemma skip_unfold {S} (s : S) : (skip : ST S unit) s = (Ret tt, s).
Proof. reflexivity. Qed.
Lemma self_unfold {A} (f : instance → A) (s : state) : self f s = (Ret (f (this s)), s).
Proof. reflexivity. Qed.
Lemma self_set_unfold f (s : state) :
  self_set f s = (Ret tt, State (f (this s)) (world_of s) (log s)).
Proof. reflexivity. Qed.
Lemma emit_unfold ev (s : state) :
  emit ev s = (Ret tt, State (this s) (world_of s) (log s ++ [ev])).
Proof. reflexivity. Qed.

(** Symbolic execution that unfolds the plumbing at the head of the
    computation only. *)
Ltac mexec :=
  repeat first
    [ rewrite bind_unfold | rewrite lift_unfold | rewrite ret_unfold
    | rewrite raise_unfold | rewrite reraise_unfold | rewrite skip_unfold
    | rewrite self_unfold | rewrite self_set_unfold | rewrite emit_unfold
    | progress cbn [this world_of log fst snd as_str when assert]
    | progress cbv beta iota zeta ].

(** C10.  A default result directory that does not exist is dropped by the
    constructor without an error: construction goes on exactly as if none
    had been given, and leaves no base directory and no metadata.  The
    missing directory is rejected when the experiment is an input whose
    value is extracted from the options: with no value there, as a missing
    argument; with the path of a directory that does not exist, by the
    assertion. *)
Theorem missing_default_instance_is_dropped (P : program) (p : string)
    (t : option string) (i o : option (Dict.t ref)) (s : state) :
  p ≠ "" →
  (OS.exists_ p (world_of s)).1 = Ret false →
  init P (Some p) t i o s = init P None t i o s
  ∧ base_directory (this (init P (Some p) t i o s).2) = None
  ∧ metadata (this (init P (Some p) t i o s).2) = None
  ∧ (∀ (opts : Dict.t pyval) (s' : state) (n : string),
       name (this s') = Some n →
       Py.truthy (default PNone (Dict.get opts n)) = false →
       (Experiment_inp_extract_cmdline_parser P opts s').1 = Raise (Exn ExperimentError ""))
  ∧ (∀ (opts : Dict.t pyval) (s' : state) (n v : string),
       name (this s') = Some n →
       Dict.get opts n = Some (PStr v) → v ≠ "" →
       (OS.exists_ (OSPath.abspath (cwd (world_of s'))
                      (OSPath.abspath (cwd (world_of s')) v)) (world_of s')).1 = Ret false →
       (Experiment_inp_extract_cmdline_parser P opts s').1 =
         Raise (Exn AssertionError "Base Directory does not exist")).
Proof.
  intros Hp Hex. rewrite (init_missing_default P p t i o s Hp Hex).
  destruct (init_without_default P t i o s) as [Hbd Hmd].
  split_and!; [done..| |].
  - intros opts s' n Hn Hv. destruct s' as [e w lg]. simpl in Hn.
    unfold Experiment_inp_extract_cmdline_parser, Types.inp_parser_extract,
      Types.parser_option.
    mexec. cbn [Types.name_of id]. rewrite Hn. mexec. rewrite Hv. mexec.
    rewrite print_unfold. by mexec.
  - intros opts s' n v Hn Hv Hne Hex'. destruct s' as [e w lg]. simpl in Hn, Hex'.
    assert (negb (v =? "")%string = true) as Hv'.
    { apply negb_true_iff, String.eqb_neq. done. }
    rewrite exists_unfold in Hex'. simpl in Hex'. injection Hex' as Hex'.
    unfold Experiment_inp_extract_cmdline_parser, Types.inp_parser_extract,
      Types.parser_option.
    mexec. cbn [Types.name_of id]. rewrite Hn. mexec. rewrite Hv.
    simpl (Py.truthy _). simpl (default _ _). rewrite Hv'. mexec.
    rewrite realpath_unfold. mexec. rewrite abspath_unfold. mexec.
    rewrite exists_unfold. mexec. rewrite Hex'. by mexec.
Qed.

(** ** The working directory *)



















(** ** Failure of the user's work *)

Lemma Dict_get_set_eq {V} (d : Dict.t V) k v : Dict.get (Dict.set d k v) k = Some v.
Proof.
  induction d as [|[k' v'] d IH]; simpl.
  - by rewrite decide_True.
  - case_decide; simpl; [by rewrite decide_True|by rewrite decide_False].
Qed.

Lemma Dict_get_set_ne {V} (d : Dict.t V) k k' v :
  k ≠ k' → Dict.get (Dict.set d k v) k' = Dict.get d k'.
Proof.
  intros Hne. induction d as [|[k0 v0] d IH]; simpl.
  - by rewrite decide_False.
  - case_decide; simpl; subst.
    + by rewrite !decide_False.
    + by case_decide.
Qed.

(** What [shutil.rmtree] leaves of the file system. *)
Lemma rmtree_Ret (p : string) (w w' : world) :
  OS.rmtree p w = (Ret tt, w') →
  cwd w' = cwd w ∧ heap w' = heap w ∧ classes w' = classes w
  ∧ (∀ q, OSPath.resolve (cwd w) p `prefix_of` q → fs w' !! q = None)
  ∧ (∀ q, ¬ OSPath.resolve (cwd w) p `prefix_of` q → fs w' !! q = fs w !! q).
Proof.
  rewrite rmtree_unfold. cbv zeta. case_bool_decide; [done|].
  destruct (OS.node_at _ _) as [[]|]; try done. intros [= <-]. simpl.
  split_and!; [done..| |].
  - intros q Hq. apply map_lookup_filter_None. right. intros x _. simpl. tauto.
  - intros q Hq. destruct (fs w !! q) as [x|] eqn:E.
    + by apply map_lookup_filter_Some.
    + apply map_lookup_filter_None. by left.
Qed.

Lemma chdir_Ret (p : string) (w w' : world) :
  OS.chdir p w = (Ret tt, w') → fs w' = fs w ∧ heap w' = heap w ∧ classes w' = classes w.
Proof.
  rewrite chdir_unfold. cbv zeta. case_bool_decide; [done|].
  destruct (OS.node_at _ _) as [[]|]; try done. by intros [= <-].
Qed.

Lemma node_at_nonroot m p : p ≠ [] → OS.node_at m p = m !! p.
Proof. by destruct p. Qed.

Lemma node_at_insert m q n :
  q ≠ [] → OS.node_at (<[q := n]> m) q = Some n.
Proof. intros Hq. rewrite node_at_nonroot by done. apply lookup_insert_eq. Qed.

Lemma node_at_insert_ne m q q' n :
  q ≠ q' → OS.node_at (<[q := n]> m) q' = OS.node_at m q'.
Proof.
  intros Hne. destruct q' as [|x q']; [done|]. simpl. by apply lookup_insert_ne.
Qed.

(** A file that has been written is read back. *)
Lemma write_then_read (p c : string) (w w' : world) :
  OS.write_file p c w = (Ret tt, w') → OS.read_file p w' = (Ret c, w').
Proof.
  rewrite write_file_unfold, read_file_unfold. cbv zeta.
  case_bool_decide as Hp; [done|].
  set (rp := OSPath.resolve (cwd w) p). set (q := OS.follow (fs w) rp).
  intros Hw.
  assert (q ≠ [] ∧ w' = set_fs (<[q := NFile c]> (fs w)) w) as [Hq ->].
  { destruct (OS.node_at (fs w) q) as [[]|] eqn:Hn;
      destruct (OS.node_at (fs w) (OS.parent q)) as [[]|]; simplify_eq;
      (split; [by intros Hq; rewrite Hq in Hn|done]). }
  cbn [cwd fs set_fs]. fold rp.
  assert (OS.follow (<[q := NFile c]> (fs w)) rp = q) as ->.
  { unfold OS.follow. destruct (decide (q = rp)) as [E|Hne].
    - rewrite <- E. by rewrite node_at_insert.
    - rewrite node_at_insert_ne by done. done. }
  by rewrite node_at_insert.
Qed.

Ltac mexec_in H :=
  repeat first
    [ rewrite bind_unfold in H | rewrite lift_unfold in H | rewrite ret_unfold in H
    | rewrite raise_unfold in H | rewrite reraise_unfold in H | rewrite skip_unfold in H
    | rewrite self_unfold in H | rewrite self_set_unfold in H | rewrite emit_unfold in H
    | progress cbn [this world_of log fst snd as_str when assert] in H
    | progress cbv beta iota zeta in H ].

Lemma preserves_lift_eq {A} (c : ST world A) : preserves (=) c → preserves (=) (lift c).
Proof.
  intros Hc s. rewrite lift_unfold. specialize (Hc (world_of s)).
  destruct (c (world_of s)) as [r w']. simpl in *. subst. by destruct s.
Qed.

Lemma obj_path_preserves_eq r : preserves (=) (obj_path r).
Proof.
  destruct r; try (apply preserves_raise, _).
  unfold obj_path, deref. apply preserves_bind; [apply _|apply read_preserves_eq|].
  intros o. unfold Types.path. destruct o as [| ? ? [| | |on] [[| | |bd]|] ?| |];
    try (apply preserves_raise, _); try (apply preserves_ret, _).
  by intros w.
Qed.

(** C5.  The scratch directory is not removed on every failure of the
    user's work.  The sample experiment has been set up; its scratch
    directory is [/tmp/tmp0] and its class has the non-suspend policy.
    When the user's work raises a [ValueError], the exception reaches the
    caller and the result directory holds the record of the set-up, with
    [date-start] and without [date-end], but the scratch directory is
    still there.  When the user's work raises a [RuntimeError], or an
    exception of a class derived from it, the scratch directory is gone. *)
Theorem scratch_directory_survives_other_exceptions :
  let s := Sample.set_up in
  let failing := execute_run (Sample.program (λ _, raise ValueError "boom")) s in
  let handled := execute_run (Sample.program (λ _, raise RuntimeError "boom")) s in
  let derived :=
    execute_run
      (Sample.program (λ _, raise (UserException "MyError" [RuntimeError]) "boom")) s in
  let record := ["home"; "u"; "Simple-50f9891dbbfe5b8f611966b9ec7afa3f"; "metadata"] in
  tmp_directory (this s) = RObj 4
  ∧ (obj_path (RObj 4) (world_of s)).1 = Ret "/tmp/tmp0"
  ∧ (cls_suspend_on_error <$> classes (world_of s) !! "Simple") = Some false
  ∧ fs (world_of s) !! ["tmp"; "tmp0"] = Some NDir
  ∧ failing.1 = Raise (Exn ValueError "boom")
  ∧ fs (world_of failing.2) !! record
      = Some (NFile (Sample.dumps
          [("n", PStr "1"); ("date-start", PStr "0"); ("experiment-name", PStr "Simple");
           ("experiment-version", PInt 1);
           ("experiment-hash", PStr "50f9891dbbfe5b8f611966b9ec7afa3f")]))
  ∧ fs (world_of failing.2) !! ["tmp"; "tmp0"] = Some NDir
  ∧ handled.1 = Raise (Exn RuntimeError "boom")
  ∧ fs (world_of handled.2) !! ["tmp"; "tmp0"] = None
  ∧ derived.1 = Raise (Exn (UserException "MyError" [RuntimeError]) "boom")
  ∧ fs (world_of derived.2) !! ["tmp"; "tmp0"] = None.
Proof. vm_compute. repeat split; reflexivity. Qed.

(** ** Clearing an existing result directory *)

(** The pattern [*] lists no entry whose name starts with a dot, so the
    clearing loop never visits one. *)
Lemma glob_star_skips_hidden (dir : string) (w : world) (f : string) :
  match (OS.glob_star dir w).1 with
  | Ret files => f ∈ files → ∃ entry, f = OSPath.join dir entry ∧ OS.hidden entry = false
  | Raise _ => False
  end.
Proof.
  rewrite glob_star_unfold. cbn [fst]. cbv zeta.
  destruct (OS.node_at _ _) as [[]|]; try by intros ?%elem_of_nil.
  intros (entry & -> & [Hh _]%list_elem_of_filter)%list_elem_of_fmap. by exists entry.
Qed.

(** C7.  Clearing an existing result directory does not remove all of its
    contents.  The same experiment is run twice with the same
    configuration; the user's work of the first run leaves [.seen] and
    [first.txt] in the result directory.  The second run gets the same
    identity and clears [first.txt], but [.seen] of the first run is still
    in the result directory when the second run is over. *)
Theorem hidden_files_survive_clearing :
  let P := Sample.program Sample.leave_files in
  let first := execute P [] [] (Sample.new Sample.world0) in
  let second := execute P [] [] (Sample.new (world_of first.2)) in
  let dir := ["home"; "u"; "Simple-50f9891dbbfe5b8f611966b9ec7afa3f"] in
  first.1 = Ret (PStr "Simple-50f9891dbbfe5b8f611966b9ec7afa3f")
  ∧ second.1 = first.1
  ∧ fs (world_of first.2) !! (dir ++ ["first.txt"]) = Some (NFile "1")
  ∧ fs (world_of first.2) !! (dir ++ [".seen"]) = Some (NFile "1")
  ∧ fs (world_of second.2) !! (dir ++ ["first.txt"]) = None
  ∧ fs (world_of second.2) !! (dir ++ ["second.txt"]) = Some (NFile "2")
  ∧ fs (world_of second.2) !! (dir ++ [".seen"]) = Some (NFile "1").
Proof. vm_compute. repeat split; reflexivity. Qed.

(** ** The order of the phases *)

Global Instance logs_preorder φ : PreOrder (logs φ).
Proof.
  split.
  - intros s. exists []. by rewrite app_nil_r.
  - intros s1 s2 s3 (t1 & E1 & F1) (t2 & E2 & F2). exists (t1 ++ t2).
    rewrite E2, E1, app_assoc. split; [done|by apply Forall_app].
Qed.



























(** The log of the sample. *)
Example sample_log :
  log (execute (Sample.program (λ _, skip)) [] [] Sample.constructed).2 =
    [EvExtracted "n"; EvIdentity "Simple-50f9891dbbfe5b8f611966b9ec7afa3f";
     EvOutputSetup "out"; EvRun].
Proof. vm_compute. reflexivity. Qed.

(** ** The declarations of the class *)

Global Instance frame_preorder n : PreOrder (frame n).
Proof.
  split; [by intros ?|].
  intros w1 w2 w3 (C1 & L1 & H1) (C2 & L2 & H2). split_and!; [congruence|lia|].
  intros l Hl. by rewrite H2, H1.
Qed.

Lemma frame_same_heap n w w' :
  heap w' = heap w → classes w' = classes w → frame n w w'.
Proof. intros E C. unfold frame. by rewrite E, C. Qed.



Lemma frame_read n l : preserves (frame n) (OS.read l).
Proof. intros w. rewrite read_unfold. by destruct (heap w !! l). Qed.







Global Instance keeps_world_preorder n : PreOrder (keeps_world n).
Proof.
  split; [by intros w _|]. intros w1 w2 w3 H12 H23 Hn.
  specialize (H12 Hn). etrans; [done|]. apply H23. destruct H12 as (_ & ? & _). lia.
Qed.

Global Instance keeps_preorder n : PreOrder (keeps n).
Proof.
  split; [by intros s _|]. intros s1 s2 s3 H12 H23.
  unfold keeps in *. by etrans.
Qed.

Global Instance keeps_owned_preorder n : PreOrder (keeps_owned n).
Proof.
  split; [by intros s _ ?|]. intros s1 s2 s3 H12 H23 Hn Ho.
  destruct (H12 Hn Ho) as [F12 O2].
  destruct (H23 (ltac:(destruct F12 as (_ & ? & _); lia)) O2) as [F23 O3].
  split; [by etrans|done].
Qed.

Lemma same_objects_keeps {A} n (c : ST world A) :
  (∀ w, heap (c w).2 = heap w ∧ classes (c w).2 = classes w) →
  preserves (keeps_world n) c.
Proof. intros H w _. destruct (H w). by apply frame_same_heap. Qed.



Lemma realpath_keeps n p : preserves (keeps_world n) (OS.realpath p).
Proof. apply same_objects_keeps. intros w. by rewrite realpath_unfold. Qed.
Lemma exists_keeps n p : preserves (keeps_world n) (OS.exists_ p).
Proof. apply same_objects_keeps. intros w. by rewrite exists_unfold. Qed.
Lemma getenv_keeps n p : preserves (keeps_world n) (OS.getenv p).
Proof. apply same_objects_keeps. intros w. by rewrite getenv_unfold. Qed.
Lemma print_keeps n p : preserves (keeps_world n) (OS.print p).
Proof. apply same_objects_keeps. intros w. by rewrite print_unfold. Qed.
Lemma read_keeps n l : preserves (keeps_world n) (OS.read l).
Proof. apply same_objects_keeps. intros w. rewrite read_unfold. by destruct (heap w !! l). Qed.
Lemma read_file_keeps n p : preserves (keeps_world n) (OS.read_file p).
Proof.
  apply same_objects_keeps. intros w. rewrite read_file_unfold. cbv zeta.
  case_bool_decide; [done|]. by destruct (OS.node_at _ _) as [[]|].
Qed.
Lemma gets_keeps {A} n (f : world → A) : preserves (keeps_world n) (gets f).
Proof. by apply same_objects_keeps. Qed.

Create HintDb keeps.
Global Hint Resolve realpath_keeps exists_keeps getenv_keeps print_keeps read_keeps
  read_file_keeps gets_keeps : keeps.




















(** ** Deep copies *)



























(** ** The theorems at the samples *)

(** C1 at the sample after [execute_setup]: title [Simple], version 1,
    configuration [n = "1"]. *)
Lemma identity_is_title_and_digest_witness :
  experiment_instance
    (this (calculate_metadata (Sample.program (λ _, skip)) Sample.set_up).2) =
    PStr ("Simple" +:+ "-" +:+ MD5.hexdigest ("version " +:+ "1" +:+ "n 1")).
Proof.
  exact (identity_is_title_and_digest (Sample.program (λ _, skip)) Sample.set_up
           (PyClass (PInt 1) false [("n", RObj 0)] [("out", RObj 1)])
           [("n", PStr "1")]
           ltac:(vm_compute; reflexivity) ltac:(vm_compute; reflexivity)).
Defined.

(** C2 at the classes [AB] and [BA], which declare the inputs [a] and [b]
    in the two orders. *)
Lemma identity_order_independent_witness :
  experiment_instance
    (this (calculate_metadata (Sample.program (λ _, skip)) (Sample.pair_set_up "AB")).2) =
  experiment_instance
    (this (calculate_metadata (Sample.program (λ _, skip)) (Sample.pair_set_up "BA")).2).
Proof.
  apply (identity_order_independent (Sample.program (λ _, skip))
           (Sample.pair_set_up "AB") (Sample.pair_set_up "BA")
           (PyClass (PInt 1) false [("a", RObj 0); ("b", RObj 1)] [])
           (PyClass (PInt 1) false [("b", RObj 1); ("a", RObj 0)] [])
           [("a", PStr "1"); ("b", PStr "2")] [("b", PStr "2"); ("a", PStr "1")]).
  - vm_compute; reflexivity.
  - vm_compute; reflexivity.
  - reflexivity.
  - vm_compute; reflexivity.
  - vm_compute; reflexivity.
  - vm_compute; reflexivity.
  - apply (bool_decide_unpack _). vm_compute. exact I.
  - apply perm_swap.
Defined.

(** C3 at the sample: the outputs are dropped and the output object is
    replaced. *)
Lemma identity_ignores_outputs_witness :
  experiment_instance
    (this (calculate_metadata (Sample.program (λ _, skip))
             (State (set_outputs [] (this Sample.set_up))
                    (set_heap (<[3 := OOther]> (heap (world_of Sample.set_up)))
                              (world_of Sample.set_up))
                    (log Sample.set_up))).2) =
  experiment_instance
    (this (calculate_metadata (Sample.program (λ _, skip)) Sample.set_up).2).
Proof.
  apply (identity_ignores_outputs (Sample.program (λ _, skip)) Sample.set_up []
           (<[3 := OOther]> (heap (world_of Sample.set_up)))).
  assert (inputs (this Sample.set_up) = [("n", RObj 2)]) as -> by (vm_compute; reflexivity).
  intros name l [= -> ->]%list_elem_of_singleton. vm_compute. reflexivity.
Defined.

(** C4 at a result directory [old] whose record is a Python literal: with
    the toggle unset, and with the toggle set to ["1"]. *)
Lemma corrupt_record_raises_witness :
  let P := Sample.program (λ _, skip) in
  let s := λ env, State (blank "Simple") (Sample.world_corrupt env) [] in
  ((reinit P 1 (PStr "old") (s ∅)).1 = Raise (Exn RuntimeError invalid_json_message)
   ∧ metadata (this (reinit P 1 (PStr "old") (s ∅)).2) = None
   ∧ log (reinit P 1 (PStr "old") (s ∅)).2 = [])
  ∧ log (load_metadata P "old" (s {[ "VERSUCHUNG_METADATA_EVAL" := "1" ]})).2 = [EvEval].
Proof.
  intros P s. split.
  - destruct (corrupt_record_raises P 0 "old" (s ∅) "('n', '1')"
                ltac:(discriminate) ltac:(vm_compute; reflexivity)
                ltac:(vm_compute; reflexivity) ltac:(reflexivity)) as [H _].
    destruct (H ltac:(vm_compute; reflexivity)) as (A & B & C).
    split_and!; [exact A|exact B|exact (C 1 (PStr "old"))].
  - destruct (corrupt_record_raises P 0 "old" (s {[ "VERSUCHUNG_METADATA_EVAL" := "1" ]})
                "('n', '1')"
                ltac:(discriminate) ltac:(vm_compute; reflexivity)
                ltac:(vm_compute; reflexivity) ltac:(reflexivity)) as [_ H].
    exact (H ltac:(intros E; vm_compute in E; discriminate E)).
Defined.

(** C10 at the sample class and a path that does not exist. *)
Lemma missing_default_instance_is_dropped_witness :
  let P := Sample.program (λ _, skip) in
  let s := State (blank "Simple") Sample.world0 [] in
  let s' := State (set_name (Some "parent") (blank "Simple")) Sample.world0 [] in
  init P (Some "missing") None None None s = init P None None None None s
  ∧ base_directory (this (init P (Some "missing") None None None s).2) = None
  ∧ metadata (this (init P (Some "missing") None None None s).2) = None
  ∧ (Experiment_inp_extract_cmdline_parser P [] s').1 = Raise (Exn ExperimentError "")
  ∧ (Experiment_inp_extract_cmdline_parser P [("parent", PStr "missing")] s').1 =
      Raise (Exn AssertionError "Base Directory does not exist").
Proof.
  intros P s s'.
  destruct (missing_default_instance_is_dropped P "missing" None None None s
              ltac:(discriminate) ltac:(vm_compute; reflexivity))
    as (A & B & C & D & E).
  split_and!; [exact A|exact B|exact C| |].
  - exact (D [] s' "parent" ltac:(reflexivity) ltac:(reflexivity)).
  - exact (E [("parent", PStr "missing")] s' "parent" "missing"
             ltac:(reflexivity) ltac:(reflexivity) ltac:(discriminate)
             ltac:(vm_compute; reflexivity)).
Defined.




